(** * OptiPic / Image Mage: the encoding decision engine

    A shallow embedding of [src/app/api/convert/route.ts] (the conversion
    route: parameter normalisation, pipeline construction, single-pass
    encoding, target-size search and the [POST] handler) and of the helper
    module [@/lib/utils] ([toBoolean], [getExtension]).

    Conventions of the embedding.
    - JavaScript strings are [string]s (sequences of 8-bit code units); the
      three characters the code inspects (['.'], ['/'] and the ASCII
      letters) are single units in every encoding of a name.
    - The numbers that reach the search (quality, byte lengths, the byte
      target) are integer valued and are modelled in [Z];
      [Number.POSITIVE_INFINITY] is a separate constructor.  [Math.round]
      is defined on rationals and specialised to the midpoint of two
      integers.  [Convert.encodeToTargetSize] takes a finite target;
      [AnyTarget.encodeToTargetSize] is the same function for every
      target that the handler can pass, [Infinity] included, and equals
      the former on the finite ones.
    - The image codec (sharp) is external: a [Sharp] value records the
      chained method calls in call order, and [toBuffer] is an oracle that
      maps such a value to bytes or to a thrown exception.  The oracle also
      receives the number of encode calls already made by the running job,
      so that nothing is assumed about the codec being deterministic.
    - [async] code is written in a small monad carrying the log of encode
      calls and the thrown exception, if any. *)

From Stdlib Require Import ZArith QArith Qround List Bool Lia DecimalString.
From Stdlib.Strings Require Import String Ascii Byte.
Import ListNotations.

Local Open Scope Z_scope.
Local Open Scope string_scope.

(* ================================================================== *)
(** * JavaScript values and primitives *)
(* ================================================================== *)

Module Js.

(** A Node [Buffer]. *)
Definition Buffer := list byte.

(** [buffer.length] *)
Definition length (b : Buffer) : Z := Z.of_nat (List.length b).

(** A browser [File] as the route uses it: [file.name] and the bytes
    delivered by [file.arrayBuffer()]. *)
Record File := { file_name : string; file_bytes : Buffer }.

(** [FormDataEntryValue = string | File] *)
Inductive FormDataEntryValue :=
| EntryString (s : string)
| EntryFile (f : File).

(** A JavaScript number: a finite value, or one of the three non-finite ones. *)
Inductive number :=
| Finite (q : Q)
| NaN
| PositiveInfinity
| NegativeInfinity.

(** The argument type of [toBoolean] in [@/lib/utils]:
    [string | number | boolean | null | undefined | File]. *)
Inductive Value :=
| VString (s : string)
| VNumber (n : number)
| VBoolean (b : bool)
| VNull
| VUndefined
| VFile (f : File).

(** [value === "literal"] *)
Definition strict_eq_string (v : Value) (lit : string) : bool :=
  match v with
  | VString s => String.eqb s lit
  | _ => false
  end.

(** [value === 1] *)
Definition strict_eq_one (v : Value) : bool :=
  match v with
  | VNumber (Finite q) => Qeq_bool q 1
  | _ => false
  end.

(** [value === true] *)
Definition strict_eq_true (v : Value) : bool :=
  match v with
  | VBoolean b => b
  | _ => false
  end.

(** [Math.round]: nearest integer, halves towards +infinity. *)
Definition Math_round (x : Q) : Z := Qfloor (x + (1 # 2)).

(** Truthiness of a [string | null | undefined] value. *)
Definition truthy_string (v : option string) : bool :=
  match v with
  | Some s => negb (String.eqb s "")
  | None => false
  end.

(** Truthiness of a [number | undefined] value (integer valued). *)
Definition truthy_number (v : option Z) : bool :=
  match v with
  | Some z => negb (Z.eqb z 0)
  | None => false
  end.

(** [v || fallback] on strings *)
Definition or_string (v : option string) (fallback : string) : string :=
  match v with
  | Some s => if String.eqb s "" then fallback else s
  | None => fallback
  end.

(** [v || undefined] on numbers *)
Definition or_undefined (v : option Z) : option Z :=
  if truthy_number v then v else None.

(** [c.toLowerCase()] on one code unit: the ASCII capitals move by 32.
    Other code units are left as they are, so [toLowerCase] below is the
    method of the program on ASCII text only. *)
Definition lower_ascii (c : ascii) : ascii :=
  let n := nat_of_ascii c in
  if ((65 <=? n) && (n <=? 90))%nat then ascii_of_nat (n + 32) else c.

(** [s.toLowerCase()] *)
Fixpoint toLowerCase (s : string) : string :=
  match s with
  | EmptyString => EmptyString
  | String c t => String (lower_ascii c) (toLowerCase t)
  end.

(** [s.split(sep)] for a one-character separator; never the empty list. *)
Fixpoint split (sep : ascii) (s : string) : list string :=
  match s with
  | EmptyString => [EmptyString]
  | String c t =>
      if Ascii.eqb c sep then EmptyString :: split sep t
      else match split sep t with
           | p :: ps => String c p :: ps
           | [] => [String c EmptyString]
           end
  end.

(** [array.includes(x)] on an array of strings *)
Definition includes (l : list string) (x : string) : bool :=
  existsb (String.eqb x) l.

(** A thrown value: an [Error] with its message, or anything else. *)
Inductive Exception :=
| Error (message : string)
| NonError.

(** The outcome of an operation that may throw. *)
Inductive Result (A : Type) :=
| Ok (a : A)
| Throw (e : Exception).

Arguments Ok {A} a.
Arguments Throw {A} e.

(** [Promise.all]: the values in input order when every promise fulfils,
    a rejection as soon as one rejects.  When several reject, JavaScript
    reports the one that rejected first in time; here it is the first in
    input order, and the theorems only rely on some rejection being
    reported. *)
Fixpoint Promise_all {A : Type} (l : list (Result A)) : Result (list A) :=
  match l with
  | [] => Ok []
  | Throw e :: _ => Throw e
  | Ok a :: rest =>
      match Promise_all rest with
      | Ok l' => Ok (a :: l')
      | Throw e => Throw e
      end
  end.

End Js.

Import Js.

(* ================================================================== *)
(** * [@/lib/utils] *)
(* ================================================================== *)

Module Utils.

(** [export function toBoolean(value)] *)
Definition toBoolean (value : Value) : bool :=
  strict_eq_string value "true" || strict_eq_string value "1"
  || strict_eq_one value || strict_eq_true value.

(** [export function getExtension(name)] *)
Definition getExtension (name : string) : string :=
  let parts := split "." name in
  if Nat.ltb 1 (List.length parts) then toLowerCase (last parts "") else "".

End Utils.

(* ================================================================== *)
(** * The external codec and the monad of [async] route code *)
(* ================================================================== *)

Module Sharp.

(** One chained method call on a sharp instance.  Options that a call
    leaves out are [None]. *)
Inductive Call :=
| Rotate
| Resize (width height : option Z) (fit : string) (withoutEnlargement : bool)
| WithMetadata
| Flatten (background : string)
| Jpeg (quality : Z) (mozjpeg progressive : option bool)
| Png (quality compressionLevel : Z) (palette : bool)
| Webp (quality effort : Z) (lossless : bool)
| Avif (quality effort : Z)
| Tiff (quality : Z) (compression : string)
| Gif.

(** [sharp(buffer, { animated }).call1().call2()...] *)
Record Pipeline := {
  input : Buffer;
  animated : bool;
  calls : list Call
}.

(** [pipeline.call(...)]: one more call at the end of the chain. *)
Definition chain (p : Pipeline) (c : Call) : Pipeline :=
  {| input := input p; animated := animated p; calls := (calls p ++ [c])%list |}.

Definition is_flatten (c : Call) : bool :=
  match c with Flatten _ => true | _ => false end.

Definition is_resize (c : Call) : bool :=
  match c with Resize _ _ _ _ => true | _ => false end.

End Sharp.

Import Sharp.

(** What the route takes from outside: the codec's [.toBuffer()], which
    receives the number of encode calls the job has already made, and
    [Number(text)] for a text that converts to a finite (integer) number,
    [None] for every other text. *)
Class Externals := {
  toBuffer : nat -> Pipeline -> Result Buffer;
  ToNumber : string -> option Z
}.

Module Async.

(** One [encodeWithQuality(buffer, format, quality, options).toBuffer()]:
    the quality argument and the pipeline handed to the codec. *)
Record EncodeCall := {
  call_quality : Z;
  call_pipeline : Pipeline
}.

(** An [async] computation of one job: it extends the log of encode calls
    and either delivers a value or throws. *)
Definition Async (A : Type) : Type :=
  list EncodeCall -> Result A * list EncodeCall.

Definition ret {A : Type} (a : A) : Async A :=
  fun log => (Ok a, log).

Definition bind {A B : Type} (c : Async A) (k : A -> Async B) : Async B :=
  fun log =>
    match c log with
    | (Ok a, log') => k a log'
    | (Throw e, log') => (Throw e, log')
    end.

(** [for (let i = 0; i < n; i += 1) body] over the loop-carried variables. *)
Fixpoint for_loop {S : Type} (n : nat) (body : S -> Async S) (s : S) : Async S :=
  match n with
  | O => ret s
  | Datatypes.S k => bind (body s) (for_loop k body)
  end.

(** [await pipeline.toBuffer()] *)
Definition await_toBuffer `{Externals} (quality : Z) (p : Pipeline) : Async Buffer :=
  fun log =>
    (toBuffer (List.length log) p,
     (log ++ [{| call_quality := quality; call_pipeline := p |}])%list).

(** The qualities of the encode calls of a log, in call order. *)
Definition qualities (log : list EncodeCall) : list Z :=
  map call_quality log.

End Async.

Import Async.

Declare Scope async_scope.
Delimit Scope async_scope with async.
Notation "x <- c1 ;; c2" := (bind c1 (fun x => c2))
  (at level 100, c1 at next level, right associativity) : async_scope.
Local Open Scope async_scope.

(* ================================================================== *)
(** * [src/app/api/convert/route.ts] *)
(* ================================================================== *)

Module Convert.

(** [const presetQuality: Record<Preset, number>], looked up by one of its
    own keys (a key inherited from [Object.prototype] is outside the
    embedding). *)
Definition presetQuality (preset : string) : option Z :=
  if String.eqb preset "tiny" then Some 45
  else if String.eqb preset "small" then Some 60
  else if String.eqb preset "balanced" then Some 75
  else if String.eqb preset "crisp" then Some 88
  else None.

(** [const mimeForFormat], looked up by one of its own keys (a key
    inherited from [Object.prototype] is outside the embedding). *)
Definition mimeForFormat (format : string) : option string :=
  if String.eqb format "jpeg" then Some "image/jpeg"
  else if String.eqb format "jpg" then Some "image/jpeg"
  else if String.eqb format "png" then Some "image/png"
  else if String.eqb format "webp" then Some "image/webp"
  else if String.eqb format "avif" then Some "image/avif"
  else if String.eqb format "tiff" then Some "image/tiff"
  else if String.eqb format "gif" then Some "image/gif"
  else None.

(** [function safeNumber(value, fallback)] on a text entry or [null]. *)
Definition safeNumber `{Externals} (value : option string) (fallback : Z) : Z :=
  match value with
  | None => fallback
  | Some s =>
      if String.eqb s "" then fallback
      else match ToNumber s with
           | Some parsed => parsed
           | None => fallback
           end
  end.

(** [function toBoolean(value: FormDataEntryValue | null)] *)
Definition toBoolean (value : option FormDataEntryValue) : bool :=
  match value with
  | Some (EntryString s) => String.eqb s "true" || String.eqb s "1"
  | _ => false
  end.

(** [function getExtension(name)] *)
Definition getExtension (name : string) : string :=
  let parts := split "." name in
  if Nat.ltb 1 (List.length parts) then toLowerCase (last parts "") else "".

(** [function normalizeFormat(format, fallback)].  [OutputFormat] is a
    union of string literals and the handler casts the form field to it
    unchecked, so a format is a string here. *)
Definition normalizeFormat (format fallback : string) : string :=
  if String.eqb format "auto" then
    if String.eqb fallback "jpeg" then "jpeg"
    else if String.eqb fallback "jpg" then "jpeg"
    else if String.eqb fallback "png" then "png"
    else if String.eqb fallback "webp" then "webp"
    else if String.eqb fallback "avif" then "avif"
    else if String.eqb fallback "tiff" then "tiff"
    else if String.eqb fallback "gif" then "gif"
    else "jpeg"
  else if String.eqb format "jpg" then "jpeg"
  else format.

(** The [options] object of [buildPipeline] and [encodeWithQuality];
    [Options.width options] reads [options.width]. *)
Module Options.
Record t := {
  width : option Z;
  height : option Z;
  fit : option string;
  keepMetadata : bool;
  background : option string;
  lossless : bool;
  progressive : bool
}.
End Options.

(** [function buildPipeline(buffer, options)] *)
Definition buildPipeline (buffer : Buffer) (options : Options.t) : Pipeline :=
  let pipeline := {| input := buffer; animated := false; calls := [Rotate] |} in
  let pipeline :=
    if truthy_number (Options.width options) || truthy_number (Options.height options)
    then chain pipeline
           (Resize (or_undefined (Options.width options)) (or_undefined (Options.height options))
                   (or_string (Options.fit options) "inside") true)
    else pipeline in
  let pipeline :=
    if Options.keepMetadata options then chain pipeline WithMetadata else pipeline in
  let pipeline :=
    match Options.background options with
    | Some color =>
        if String.eqb color "" then pipeline else chain pipeline (Flatten color)
    | None => pipeline
    end in
  pipeline.

(** [function encodeWithQuality(buffer, format, quality, options)] *)
Definition encodeWithQuality
    (buffer : Buffer) (format : string) (quality : Z) (options : Options.t) : Pipeline :=
  let pipeline := buildPipeline buffer options in
  if String.eqb format "jpeg" then
    chain pipeline (Jpeg quality (Some true) (Some (Options.progressive options)))
  else if String.eqb format "png" then
    chain pipeline (Png quality 9 true)
  else if String.eqb format "webp" then
    chain pipeline (Webp quality 5 (Options.lossless options))
  else if String.eqb format "avif" then
    chain pipeline (Avif quality 5)
  else if String.eqb format "tiff" then
    chain pipeline (Tiff quality "lzw")
  else if String.eqb format "gif" then
    chain pipeline Gif
  else
    chain pipeline (Jpeg quality None None).

(** [bestDiff]: [Number.POSITIVE_INFINITY] at first, then an integer. *)
Inductive Diff :=
| POSITIVE_INFINITY
| Bytes (d : Z).

(** [diff < bestDiff] *)
Definition diff_lt (diff : Z) (bestDiff : Diff) : bool :=
  match bestDiff with
  | POSITIVE_INFINITY => true
  | Bytes d => Z.ltb diff d
  end.

(** The variables of [encodeToTargetSize] that the loop updates. *)
Record SearchState := {
  low : Z;
  high : Z;
  bestBuffer : option Buffer;
  bestDiff : Diff
}.

(** The four [let]s that open [encodeToTargetSize]. *)
Definition search_init (baseQuality : Z) : SearchState :=
  {| low := 30;
     high := Z.max baseQuality 40;
     bestBuffer := None;
     bestDiff := POSITIVE_INFINITY |}.

(** [Math.round((low + high) / 2)] *)
Definition midpoint (low high : Z) : Z :=
  Math_round (inject_Z (low + high) / 2).

(** The body of the [for] loop of [encodeToTargetSize]. *)
Definition search_body `{Externals}
    (buffer : Buffer) (format : string) (targetBytes : Z) (options : Options.t)
    (st : SearchState) : Async SearchState :=
  let quality := midpoint (low st) (high st) in
  encoded <- await_toBuffer quality (encodeWithQuality buffer format quality options) ;;
  let diff := Z.abs (length encoded - targetBytes) in
  let st :=
    if diff_lt diff (bestDiff st)
    then {| low := low st; high := high st;
            bestBuffer := Some encoded; bestDiff := Bytes diff |}
    else st in
  if Z.gtb (length encoded) targetBytes
  then ret {| low := low st; high := quality - 2;
              bestBuffer := bestBuffer st; bestDiff := bestDiff st |}
  else ret {| low := quality + 2; high := high st;
              bestBuffer := bestBuffer st; bestDiff := bestDiff st |}.

(** The [for (let i = 0; i < 8; i += 1)] loop, run for [n] rounds. *)
Definition search_loop `{Externals}
    (n : nat) (buffer : Buffer) (format : string) (targetBytes baseQuality : Z)
    (options : Options.t) : Async SearchState :=
  for_loop n (search_body buffer format targetBytes options) (search_init baseQuality).

(** [async function encodeToTargetSize(buffer, format, targetBytes,
    baseQuality, options)] *)
Definition encodeToTargetSize `{Externals}
    (buffer : Buffer) (format : string) (targetBytes baseQuality : Z)
    (options : Options.t) : Async Buffer :=
  st <- search_loop 8 buffer format targetBytes baseQuality options ;;
  match bestBuffer st with
  | Some best => ret best
  | None =>
      await_toBuffer baseQuality (encodeWithQuality buffer format baseQuality options)
  end.

(** [[^/.]] *)
Definition not_slash_dot (c : ascii) : bool :=
  negb (Ascii.eqb c "/" || Ascii.eqb c ".").

(** [[^/.]*$] read from the start of [s] *)
Fixpoint all_not_slash_dot (s : string) : bool :=
  match s with
  | EmptyString => true
  | String c t => not_slash_dot c && all_not_slash_dot t
  end.

(** [/\.[^/.]+$/] matches the whole of [s] *)
Definition matches_extension (s : string) : bool :=
  match s with
  | String "."%char (String c t) => not_slash_dot c && all_not_slash_dot t
  | _ => false
  end.

(** [name.replace(/\.[^/.]+$/, "")]: the leftmost match is removed. *)
Fixpoint replace_extension (name : string) : string :=
  if matches_extension name then ""
  else match name with
       | EmptyString => ""
       | String c t => String c (replace_extension t)
       end.

(** The form of a request: the [File]s under the key ["files"] and the
    text fields ([formData.get(key)], [None] for [null]). *)
Record FormData := {
  getAll_files : list File;
  get : string -> option string
}.

(** The object that the callback of [files.map] returns. *)
Record Output := {
  name : string;
  buffer : Buffer;
  mime : option string
}.

(** What the handler answers: [Response.json({ error }, { status })], one
    file as an attachment, or the zip archive [optipic-export.zip] with the
    entries appended to it, in order. *)
Inductive Response :=
| JsonError (error : string) (status : Z)
| Attachment (body : Buffer) (contentType : option string) (filename : string)
| ZipArchive (entries : list (Buffer * string)).

Section POST.

Context `{Externals}.
Variable formData : FormData.

(** The [const]s that [POST] reads from the form. *)
Definition files : list File := getAll_files formData.
Definition requestedFormat : string := or_string (get formData "format") "auto".
Definition preset : string := or_string (get formData "preset") "balanced".
Definition quality : Z :=
  safeNumber (get formData "quality")
    (match presetQuality preset with Some q => q | None => 75 end).
Definition targetSizeKB : Z := safeNumber (get formData "targetSizeKB") 0.
Definition resizeWidth : Z := safeNumber (get formData "width") 0.
Definition resizeHeight : Z := safeNumber (get formData "height") 0.
Definition fit : string := or_string (get formData "fit") "inside".
Definition keepMetadata : bool :=
  toBoolean (option_map EntryString (get formData "keepMetadata")).
Definition flatten : bool :=
  toBoolean (option_map EntryString (get formData "flatten")).
Definition background : string := or_string (get formData "background") "#ffffff".
Definition lossless : bool :=
  toBoolean (option_map EntryString (get formData "lossless")).
Definition progressive : bool :=
  toBoolean (option_map EntryString (get formData "progressive")).

(** The [const]s of the callback of [files.map]. *)
Definition hasAlphaFormats : list string := ["png"; "webp"; "avif"; "gif"].

Definition outputFormat (file : File) : string :=
  normalizeFormat requestedFormat (getExtension (file_name file)).

Definition shouldFlatten (file : File) : bool :=
  flatten && negb (includes hasAlphaFormats (outputFormat file)).

Definition encoderOptions (file : File) : Options.t :=
  {| Options.width := or_undefined (Some resizeWidth);
     Options.height := or_undefined (Some resizeHeight);
     Options.fit := Some fit;
     Options.keepMetadata := keepMetadata;
     Options.background := if shouldFlatten file then Some background else None;
     Options.lossless := lossless;
     Options.progressive := progressive |}.

Definition outputName (file : File) : string :=
  let extension :=
    if String.eqb (outputFormat file) "jpeg" then "jpg" else outputFormat file in
  let baseName := replace_extension (file_name file) in
  baseName ++ "." ++ extension.

(** The callback [async (file) => { ... }] of [files.map]. *)
Definition convert_file (file : File) : Async Output :=
  let buffer := file_bytes file in
  encoded <-
    (if Z.gtb targetSizeKB 0
     then encodeToTargetSize buffer (outputFormat file) (targetSizeKB * 1024)
            quality (encoderOptions file)
     else await_toBuffer quality
            (encodeWithQuality buffer (outputFormat file) quality (encoderOptions file))) ;;
  ret {| name := outputName file;
         buffer := encoded;
         mime := mimeForFormat (outputFormat file) |}.

(** The promise of one file's job: the callback run from an empty log. *)
Definition job (file : File) : Result Output :=
  fst (convert_file file []).

(** [export async function POST(request)], from the parsed form on.  The
    archiver and the [Response] constructor are taken to succeed and to
    keep the names they are given. *)
Definition POST : Response :=
  match files with
  | [] => JsonError "No files provided." 400
  | _ =>
      match Promise_all (map job files) with
      | Throw error =>
          JsonError
            (match error with
             | Error message => message
             | NonError => "Failed to process images."
             end) 500
      | Ok [file] => Attachment (buffer file) (mime file) (name file)
      | Ok outputs => ZipArchive (map (fun output => (buffer output, name output)) outputs)
      end
  end.

End POST.

End Convert.

Import Convert.

(* ================================================================== *)
(** * Vocabulary of the statements *)
(* ================================================================== *)

(** [FormDataEntryValue | null] seen as an argument of the helper of
    [@/lib/utils]. *)
Definition entry_value (value : option FormDataEntryValue) : Value :=
  match value with
  | None => VNull
  | Some (EntryString s) => VString s
  | Some (EntryFile f) => VFile f
  end.

(** The extensions that [normalizeFormat] recognises under [auto]. *)
Definition known_extensions : list string :=
  ["jpeg"; "jpg"; "png"; "webp"; "avif"; "tiff"; "gif"].

(** A [number | undefined] option that is present and not zero. *)
Definition nonzero (v : option Z) : Prop :=
  exists z, v = Some z /\ z <> 0.

(** The codec answers every encode call with bytes. *)
Definition codec_succeeds (E : Externals) : Prop :=
  forall (i : nat) (p : Pipeline), exists encoded : Buffer, toBuffer i p = Ok encoded.

(** The bytes that the codec returned for the [j]-th encode call of a log. *)
Definition iteration_buffer `{Externals} (log : list EncodeCall) (j : nat) : option Buffer :=
  match nth_error log j with
  | Some call =>
      match toBuffer j (call_pipeline call) with
      | Ok encoded => Some encoded
      | Throw _ => None
      end
  | None => None
  end.

(** [Math.abs(encoded.length - targetBytes)] *)
Definition diff_to_target (targetBytes : Z) (encoded : Buffer) : Z :=
  Z.abs (length encoded - targetBytes).

(** What the loop of [encodeToTargetSize] keeps true of its two bounds. *)
Definition bounds_invariant (baseQuality : Z) (st : SearchState) : Prop :=
  high st <= Z.max baseQuality 40
  /\ ((low st = 30 /\ low st - high st <= 3)
      \/ (31 <= low st /\ low st - high st <= 4)).

Section SearchTrace.

Context `{Externals}.
Variables (buffer : Buffer) (format : string) (targetBytes baseQuality : Z).
Variable options : Options.t.

(** The bytes of round [i] when it encodes at [quality] (no bytes when the
    codec throws). *)
Definition round_buffer (i : nat) (quality : Z) : Buffer :=
  match toBuffer i (encodeWithQuality buffer format quality options) with
  | Ok encoded => encoded
  | Throw _ => []
  end.

(** The bounds [(low, high)] before round [i], by the recurrence of the
    specification: [(30, max(baseQuality, 40))] at first, then [high =
    quality - 2] after a round whose bytes exceed the target and [low =
    quality + 2] after any other round. *)
Fixpoint bounds_before (i : nat) : Z * Z :=
  match i with
  | O => (30, Z.max baseQuality 40)
  | S k =>
      let quality := midpoint (fst (bounds_before k)) (snd (bounds_before k)) in
      if Z.gtb (length (round_buffer k quality)) targetBytes
      then (fst (bounds_before k), quality - 2)
      else (quality + 2, snd (bounds_before k))
  end.

(** The quality of round [i]. *)
Definition quality_at (i : nat) : Z :=
  midpoint (fst (bounds_before i)) (snd (bounds_before i)).

(** The encode call of round [i]. *)
Definition call_at (i : nat) : EncodeCall :=
  {| call_quality := quality_at i;
     call_pipeline := encodeWithQuality buffer format (quality_at i) options |}.

End SearchTrace.

(** The claim that the search clamps the qualities it tries to 30..95. *)
Definition qualities_clamped `{Externals}
    (buffer : Buffer) (format : string) (targetBytes baseQuality : Z)
    (options : Options.t) : Prop :=
  Forall (fun q => 30 <= q <= 95)
    (qualities (snd (encodeToTargetSize buffer format targetBytes baseQuality options []))).

(** An output reaches the caller: it is the attachment of the response or
    an entry of its archive. *)
Definition delivered (response : Response) (output : Output) : Prop :=
  match response with
  | JsonError _ _ => False
  | Attachment body _ filename => body = buffer output /\ filename = name output
  | ZipArchive entries => In (buffer output, name output) entries
  end.

(** The claim that a codec failure on one file of a batch stays with that
    file: every sibling whose conversion completes has its result
    delivered. *)
Definition failure_stays_with_its_job `{Externals} (formData : FormData) : Prop :=
  (exists failing e, In failing (files formData) /\ job formData failing = Throw e) ->
  forall sibling output,
    In sibling (files formData) ->
    job formData sibling = Ok output ->
    delivered (POST formData) output.

(** [s] holds a ['.']. *)
Fixpoint has_dot (s : string) : bool :=
  match s with
  | EmptyString => false
  | String c t => Ascii.eqb c "." || has_dot t
  end.

(** The claim that the output name is the input name without its final
    dot-extension, a dot, and the name of the resolved format ([jpg] for
    [jpeg]). *)
Definition final_extension_replaced `{Externals} (formData : FormData) (file : File) : Prop :=
  forall output,
    job formData file = Ok output ->
    let extension :=
      if String.eqb (outputFormat formData file) "jpeg" then "jpg"
      else outputFormat formData file in
    (has_dot (file_name file) = false ->
       name output = file_name file ++ "." ++ extension)
    /\ (forall base ext,
          file_name file = base ++ "." ++ ext -> has_dot ext = false ->
          name output = base ++ "." ++ extension).

(* ================================================================== *)
(** * Sample inputs *)
(* ================================================================== *)

(** The value of a text made of decimal digits only. *)
Fixpoint digits_value (s : string) (acc : Z) : option Z :=
  match s with
  | EmptyString => Some acc
  | String c t =>
      let n := Z.of_nat (nat_of_ascii c) in
      if (48 <=? n)%Z && (n <=? 57)%Z then digits_value t (10 * acc + (n - 48)) else None
  end.

Definition decimal (s : string) : option Z :=
  match s with
  | EmptyString => None
  | _ => digits_value s 0
  end.

(** A codec that answers every call with [size] zero bytes. *)
Definition codec_of_size (size : nat) : Externals :=
  {| toBuffer := fun _ _ => Ok (repeat x00 size); ToNumber := decimal |}.

(** Options that ask for nothing. *)
Definition plain_options : Options.t :=
  {| Options.width := None; Options.height := None; Options.fit := None;
     Options.keepMetadata := false; Options.background := None;
     Options.lossless := false; Options.progressive := false |}.

(** A codec that throws on an empty input and otherwise answers with the
    input bytes. *)
Definition codec_rejecting_empty : Externals :=
  {| toBuffer := fun _ p =>
       match input p with
       | [] => Throw (Error "Input Buffer is empty")
       | _ => Ok (input p)
       end;
     ToNumber := decimal |}.

(** A form with the given files and no text field. *)
Definition form_of_files (l : list File) : FormData :=
  {| getAll_files := l; get := fun _ => None |}.

Definition good_file : File :=
  {| file_name := "photo.png"; file_bytes := [x89; x50; x4e; x47] |}.

Definition bad_file : File :=
  {| file_name := "broken.png"; file_bytes := [] |}.

Definition trailing_dot_file : File :=
  {| file_name := "scan."; file_bytes := [xff; xd8] |}.

(** Options that ask for a width of 800 and a white background. *)
Definition wide_flat_options : Options.t :=
  {| Options.width := Some 800; Options.height := None; Options.fit := None;
     Options.keepMetadata := true; Options.background := Some "#ffffff";
     Options.lossless := false; Options.progressive := false |}.

(** A form that asks for jpg output, flattened, of one sound file. *)
Definition flatten_jpg_form : FormData :=
  {| getAll_files := [good_file];
     get := fun key =>
       if String.eqb key "format" then Some "jpg"
       else if String.eqb key "flatten" then Some "true"
       else None |}.

(* ================================================================== *)
(** * Further vocabulary *)
(* ================================================================== *)

(** The call is one of the six output encoders. *)
Definition is_encoder (c : Call) : bool :=
  match c with
  | Jpeg _ _ _ | Png _ _ _ | Webp _ _ _ | Avif _ _ | Tiff _ _ | Gif => true
  | _ => false
  end.

(** The quality that an encoder call carries; [gif()] carries none. *)
Definition encoder_quality (c : Call) : option Z :=
  match c with
  | Jpeg q _ _ | Png q _ _ | Webp q _ _ | Avif q _ | Tiff q _ => Some q
  | _ => None
  end.

Definition is_withMetadata (c : Call) : bool :=
  match c with WithMetadata => true | _ => false end.

(** [{ ...options, lossless }] *)
Definition with_lossless (flag : bool) (options : Options.t) : Options.t :=
  {| Options.width := Options.width options;
     Options.height := Options.height options;
     Options.fit := Options.fit options;
     Options.keepMetadata := Options.keepMetadata options;
     Options.background := Options.background options;
     Options.lossless := flag;
     Options.progressive := Options.progressive options |}.

(** [{ ...options, progressive }] *)
Definition with_progressive (flag : bool) (options : Options.t) : Options.t :=
  {| Options.width := Options.width options;
     Options.height := Options.height options;
     Options.fit := Options.fit options;
     Options.keepMetadata := Options.keepMetadata options;
     Options.background := Options.background options;
     Options.lossless := Options.lossless options;
     Options.progressive := flag |}.

(** A codec whose answer does not depend on how many calls came before. *)
Definition index_independent (E : Externals) : Prop :=
  forall (i j : nat) (p : Pipeline), toBuffer i p = toBuffer j p.

(** The formats of the [OutputFormat] union. *)
Definition output_formats : list string :=
  ["auto"; "jpeg"; "jpg"; "png"; "webp"; "avif"; "tiff"; "gif"].

(* ================================================================== *)
(** * [@/lib/utils], continued: [safeNumber] *)
(* ================================================================== *)

Module LibUtils.

(** [export function safeNumber(value, fallback)].  [!value] holds for
    [null], [undefined], the empty text, the number zero, [NaN] and
    [false]; [typeof value === "object"] holds for [null] and for a
    [File]; [Number(value)] is the number itself, the parsed text, or 1
    for [true]; a non-finite result gives the fallback. *)
Definition safeNumber `{Externals} (value : Value) (fallback : Q) : Q :=
  match value with
  | VNull | VUndefined => fallback
  | VFile _ => fallback
  | VString s =>
      if String.eqb s "" then fallback
      else match ToNumber s with
           | Some parsed => inject_Z parsed
           | None => fallback
           end
  | VNumber (Finite q) => if Qeq_bool q 0 then fallback else q
  | VNumber NaN => fallback
  | VNumber PositiveInfinity => fallback
  | VNumber NegativeInfinity => fallback
  | VBoolean true => 1
  | VBoolean false => fallback
  end.

End LibUtils.

(** A number of a form as the integer it is: the numbers that the routes
    hand to the encoder are integers in this embedding. *)
Definition as_integer (q : Q) : Z := Qfloor q.

(* ================================================================== *)
(** * The estimate route *)
(* ================================================================== *)

(** The route that estimates the output sizes before a conversion.  Its
    [presetQuality], [buildPipeline], [encodeWithQuality] and
    [encodeToTargetSize] are those of the conversion route, token for
    token, and are taken from there; its [normalizeFormat] takes an
    optional fallback, and the form is read with the helpers of
    [@/lib/utils]. *)
Module Estimate.

(** [function normalizeFormat(format, fallback?)] *)
Definition normalizeFormat (format : string) (fallback : option string) : string :=
  let normalizedFallback := match fallback with Some s => s | None => "" end in
  if String.eqb format "auto" then
    if String.eqb normalizedFallback "jpeg" then "jpeg"
    else if String.eqb normalizedFallback "jpg" then "jpeg"
    else if String.eqb normalizedFallback "png" then "png"
    else if String.eqb normalizedFallback "webp" then "webp"
    else if String.eqb normalizedFallback "avif" then "avif"
    else if String.eqb normalizedFallback "tiff" then "tiff"
    else if String.eqb normalizedFallback "gif" then "gif"
    else "jpeg"
  else if String.eqb format "jpg" then "jpeg"
  else format.

(** The object that the callback of [files.map] returns. *)
Record Entry := {
  name : string;
  inputName : string;
  inputSize : Z;
  outputSize : Z
}.

(** [Response.json({ files })] or [Response.json({ error }, { status })]. *)
Inductive Response :=
| JsonError (error : string) (status : Z)
| JsonFiles (files : list Entry).

Section POST.

Context `{Externals}.
Variable formData : FormData.

(** [formData.get(key)] as an argument of the helpers. *)
Definition entry (key : string) : Value :=
  entry_value (option_map EntryString (get formData key)).

Definition files : list File := getAll_files formData.
Definition requestedFormat : string := or_string (get formData "format") "auto".
Definition preset : string := or_string (get formData "preset") "balanced".
Definition quality : Z :=
  as_integer
    (LibUtils.safeNumber (entry "quality")
       (inject_Z (match presetQuality preset with Some q => q | None => 75 end))).
Definition targetSizeKB : Z := as_integer (LibUtils.safeNumber (entry "targetSizeKB") 0).
Definition resizeWidth : Z := as_integer (LibUtils.safeNumber (entry "width") 0).
Definition resizeHeight : Z := as_integer (LibUtils.safeNumber (entry "height") 0).
Definition fit : string := or_string (get formData "fit") "inside".
Definition keepMetadata : bool := Utils.toBoolean (entry "keepMetadata").
Definition flatten : bool := Utils.toBoolean (entry "flatten").
Definition background : string := or_string (get formData "background") "#ffffff".
Definition lossless : bool := Utils.toBoolean (entry "lossless").
Definition progressive : bool := Utils.toBoolean (entry "progressive").

(** [new Set(["png", "webp", "avif", "gif"])]; [includes] reads [has]. *)
Definition alphaFormats : list string := ["png"; "webp"; "avif"; "gif"].

Definition outputFormat (file : File) : string :=
  normalizeFormat requestedFormat (Some (Utils.getExtension (file_name file))).

Definition shouldFlatten (file : File) : bool :=
  flatten && negb (includes alphaFormats (outputFormat file)).

Definition encoderOptions (file : File) : Options.t :=
  {| Options.width := or_undefined (Some resizeWidth);
     Options.height := or_undefined (Some resizeHeight);
     Options.fit := Some fit;
     Options.keepMetadata := keepMetadata;
     Options.background := if shouldFlatten file then Some background else None;
     Options.lossless := lossless;
     Options.progressive := progressive |}.

Definition outputName (file : File) : string :=
  let extension :=
    if String.eqb (outputFormat file) "jpeg" then "jpg" else outputFormat file in
  let baseName := replace_extension (file_name file) in
  baseName ++ "." ++ extension.

(** The callback [async (file) => { ... }] of [files.map]. *)
Definition estimate_file (file : File) : Async Entry :=
  let buffer := file_bytes file in
  encoded <-
    (if Z.gtb targetSizeKB 0
     then encodeToTargetSize buffer (outputFormat file) (targetSizeKB * 1024)
            quality (encoderOptions file)
     else await_toBuffer quality
            (encodeWithQuality buffer (outputFormat file) quality (encoderOptions file))) ;;
  ret {| name := outputName file;
         inputName := file_name file;
         inputSize := length (file_bytes file);
         outputSize := length encoded |}.

(** The promise of one file's job. *)
Definition job (file : File) : Result Entry :=
  fst (estimate_file file []).

(** [export async function POST(request)] of the estimate route. *)
Definition POST : Response :=
  match files with
  | [] => JsonError "No files provided." 400
  | _ =>
      match Promise_all (map job files) with
      | Throw error =>
          JsonError
            (match error with
             | Error message => message
             | NonError => "Failed to estimate images."
             end) 500
      | Ok outputs => JsonFiles outputs
      end
  end.

End POST.

End Estimate.

(* ================================================================== *)
(** * The page: the form that [handleSubmit] sends *)
(* ================================================================== *)

Module Page.

(** [String(flag)] *)
Definition String_boolean (flag : bool) : string :=
  if flag then "true" else "false".

(** [String(n)] for an integer *)
Definition String_number (n : Z) : string :=
  NilZero.string_of_int (Z.to_int n).

(** The state of the page that [handleSubmit] reads. *)
Record Settings := {
  format : string;
  preset : string;
  quality : Z;
  targetSizeKB : string;
  width : string;
  height : string;
  fit : string;
  keepMetadata : bool;
  flattenBackground : bool;
  background : string;
  lossless : bool;
  progressive : bool
}.

(** [new FormData()] *)
Definition new_FormData : FormData :=
  {| getAll_files := []; get := fun _ => None |}.

(** [formData.append("files", file, file.name)] *)
Definition append_file (file : File) (formData : FormData) : FormData :=
  {| getAll_files := (getAll_files formData ++ [file])%list; get := get formData |}.

(** [formData.set(key, value)] *)
Definition set (key value : string) (formData : FormData) : FormData :=
  {| getAll_files := getAll_files formData;
     get := fun k => if String.eqb k key then Some value else get formData k |}.

(** [if (value) formData.set(key, value)] *)
Definition set_if_given (key value : string) (formData : FormData) : FormData :=
  if String.eqb value "" then formData else set key value formData.

(** The form that [handleSubmit] builds from the files and the settings. *)
Definition submitted_form (files : list File) (st : Settings) : FormData :=
  let formData := new_FormData in
  let formData := fold_left (fun fd file => append_file file fd) files formData in
  let formData := set "format" (format st) formData in
  let formData :=
    set "preset" (if String.eqb (preset st) "custom" then "balanced" else preset st)
      formData in
  let formData := set "quality" (String_number (quality st)) formData in
  let formData := set_if_given "targetSizeKB" (targetSizeKB st) formData in
  let formData := set_if_given "width" (width st) formData in
  let formData := set_if_given "height" (height st) formData in
  let formData := set "fit" (fit st) formData in
  let formData := set "keepMetadata" (String_boolean (keepMetadata st)) formData in
  let formData := set "flatten" (String_boolean (flattenBackground st)) formData in
  let formData := set "background" (background st) formData in
  let formData := set "lossless" (String_boolean (lossless st)) formData in
  let formData := set "progressive" (String_boolean (progressive st)) formData in
  formData.

End Page.

(* ================================================================== *)
(** * The theme toggle *)
(* ================================================================== *)

Module ThemeToggle.

(** What the component reads from the browser: the item stored under
    [optipic-theme] and whether the system prefers a dark scheme. *)
Record Window := {
  saved : option string;
  prefersDark : bool
}.

(** [function getSystemTheme()]; [None] is [typeof window ===
    "undefined"]. *)
Definition getSystemTheme (window : option Window) : string :=
  match window with
  | None => "light"
  | Some w => if prefersDark w then "dark" else "light"
  end.

(** The initialiser of [useState<Theme>]. *)
Definition initialTheme (window : option Window) : string :=
  match window with
  | None => "light"
  | Some w =>
      match saved w with
      | Some theme => theme
      | None => getSystemTheme window
      end
  end.

(** The theme that [toggle] sets. *)
Definition toggle (theme : string) : string :=
  if String.eqb theme "light" then "dark" else "light".

(** The effect run on every change of the theme:
    [localStorage.setItem(storageKey, theme)]. *)
Definition store (theme : string) (w : Window) : Window :=
  {| saved := Some theme; prefersDark := prefersDark w |}.

End ThemeToggle.

(* ================================================================== *)
(** * Further sample inputs *)
(* ================================================================== *)

(** A form with one text field and the given files. *)
Definition form_with (key value : string) (l : list File) : FormData :=
  {| getAll_files := l;
     get := fun k => if String.eqb k key then Some value else None |}.

Definition upper_case_file : File :=
  {| file_name := "Holiday.PNG"; file_bytes := [x89; x50] |}.

Definition other_extension_file : File :=
  {| file_name := "photo.gif"; file_bytes := [x47; x49; x46] |}.

Definition page_settings : Page.Settings :=
  {| Page.format := "webp"; Page.preset := "custom"; Page.quality := 82;
     Page.targetSizeKB := ""; Page.width := "800"; Page.height := "";
     Page.fit := "cover"; Page.keepMetadata := false; Page.flattenBackground := true;
     Page.background := "#ffffff"; Page.lossless := false; Page.progressive := true |}.

(* ================================================================== *)
(** * The search for every byte target *)
(* ================================================================== *)

(** [targetBytes] is [targetSizeKB * 1024], a product of doubles: an
    integer while the product is below 2^1024 and [Infinity] from there
    on.  This module is [encodeToTargetSize] and its caller for such a
    target, written with the type of [bestDiff] ([Bytes t] for the
    integer [t], [POSITIVE_INFINITY] for [Infinity]). *)
Module AnyTarget.

(** [Math.abs(encoded.length - targetBytes)] *)
Definition abs_diff (len : Z) (targetBytes : Diff) : Diff :=
  match targetBytes with
  | POSITIVE_INFINITY => POSITIVE_INFINITY
  | Bytes t => Bytes (Z.abs (len - t))
  end.

(** [diff < bestDiff] *)
Definition diff_lt (diff bestDiff : Diff) : bool :=
  match diff with
  | POSITIVE_INFINITY => false
  | Bytes d =>
      match bestDiff with
      | POSITIVE_INFINITY => true
      | Bytes best => Z.ltb d best
      end
  end.

(** [encoded.length > targetBytes] *)
Definition length_gt (len : Z) (targetBytes : Diff) : bool :=
  match targetBytes with
  | POSITIVE_INFINITY => false
  | Bytes t => Z.gtb len t
  end.

(** The body of the [for] loop of [encodeToTargetSize]. *)
Definition search_body `{Externals}
    (buffer : Buffer) (format : string) (targetBytes : Diff) (options : Options.t)
    (st : SearchState) : Async SearchState :=
  let quality := midpoint (low st) (high st) in
  encoded <- await_toBuffer quality (encodeWithQuality buffer format quality options) ;;
  let diff := abs_diff (length encoded) targetBytes in
  let st :=
    if diff_lt diff (bestDiff st)
    then {| low := low st; high := high st;
            bestBuffer := Some encoded; bestDiff := diff |}
    else st in
  if length_gt (length encoded) targetBytes
  then ret {| low := low st; high := quality - 2;
              bestBuffer := bestBuffer st; bestDiff := bestDiff st |}
  else ret {| low := quality + 2; high := high st;
              bestBuffer := bestBuffer st; bestDiff := bestDiff st |}.

(** The [for (let i = 0; i < 8; i += 1)] loop, run for [n] rounds. *)
Definition search_loop `{Externals}
    (n : nat) (buffer : Buffer) (format : string) (targetBytes : Diff)
    (baseQuality : Z) (options : Options.t) : Async SearchState :=
  for_loop n (search_body buffer format targetBytes options) (search_init baseQuality).

(** [async function encodeToTargetSize(buffer, format, targetBytes,
    baseQuality, options)] *)
Definition encodeToTargetSize `{Externals}
    (buffer : Buffer) (format : string) (targetBytes : Diff) (baseQuality : Z)
    (options : Options.t) : Async Buffer :=
  st <- search_loop 8 buffer format targetBytes baseQuality options ;;
  match bestBuffer st with
  | Some best => ret best
  | None =>
      await_toBuffer baseQuality (encodeWithQuality buffer format baseQuality options)
  end.

(** [targetSizeKB * 1024] for the positive integer that the handler
    multiplies: the product of the doubles is exact below 2^1024 and is
    [Infinity] from there on, that is from [targetSizeKB = 2^1014] on. *)
Definition times_1024 (targetSizeKB : Z) : Diff :=
  if Z.leb (2 ^ 1014) targetSizeKB then POSITIVE_INFINITY
  else Bytes (targetSizeKB * 1024).

Section POST.

Context `{Externals}.
Variable formData : FormData.

(** The callback [async (file) => { ... }] of [files.map] of the
    conversion route, with the product [targetSizeKB * 1024] as the
    program computes it. *)
Definition convert_file (file : File) : Async Output :=
  let buffer := file_bytes file in
  encoded <-
    (if Z.gtb (targetSizeKB formData) 0
     then encodeToTargetSize buffer (outputFormat formData file)
            (times_1024 (targetSizeKB formData))
            (quality formData) (encoderOptions formData file)
     else await_toBuffer (quality formData)
            (encodeWithQuality buffer (outputFormat formData file) (quality formData)
               (encoderOptions formData file))) ;;
  ret {| name := outputName formData file;
         buffer := encoded;
         mime := mimeForFormat (outputFormat formData file) |}.

End POST.

End AnyTarget.

(** The claim that the search makes at most eight encode calls. *)
Definition at_most_eight_calls `{Externals}
    (buffer : Buffer) (format : string) (targetBytes : Diff) (baseQuality : Z)
    (options : Options.t) : Prop :=
  (List.length
     (snd (AnyTarget.encodeToTargetSize buffer format targetBytes baseQuality options []))
   <= 8)%nat.

(** The claim that the loop always records a best buffer, so that the
    search returns it and the fallback encode is not reached. *)
Definition fallback_never_taken `{Externals}
    (buffer : Buffer) (format : string) (targetBytes : Diff) (baseQuality : Z)
    (options : Options.t) : Prop :=
  exists st log best,
    AnyTarget.search_loop 8 buffer format targetBytes baseQuality options [] = (Ok st, log)
    /\ bestBuffer st = Some best
    /\ AnyTarget.encodeToTargetSize buffer format targetBytes baseQuality options [] =
       (Ok best, log).

(** Every code unit of the text is an ASCII one. *)
Fixpoint is_ascii (s : string) : bool :=
  match s with
  | EmptyString => true
  | String c t => (nat_of_ascii c <? 128)%nat && is_ascii t
  end.

(** A codec that answers the call of index [i] with 1048 bytes that all
    hold [i]: every answer has the same length and no two are equal. *)
Definition codec_tagging_calls : Externals :=
  {| toBuffer := fun i _ =>
       Ok (repeat (match Byte.of_nat i with Some b => b | None => x00 end) 1048);
     ToNumber := decimal |}.

(** A form whose target size is 2^1014 KB, written in decimal digits. *)
Definition overflow_form : FormData :=
  form_with "targetSizeKB" (Page.String_number (2 ^ 1014)) [good_file].

(* ================================================================== *)
(** * Parameter normaliser *)
(* ================================================================== *)

Section Normaliser.

Lemma eqb_orb_true (s a b : string) :
  String.eqb s a || String.eqb s b = true <-> s = a \/ s = b.
Proof.
  rewrite orb_true_iff, !String.eqb_eq. reflexivity.
Qed.

(** C6. [toBoolean] of [@/lib/utils] is true exactly for the string
    ["true"], the string ["1"], the number 1 and the boolean [true]; it is
    false for [null], [undefined], ["false"], ["0"], 0, [false] and every
    [File] object.  The copy local to the conversion route, whose argument
    is a [FormDataEntryValue] or [null], gives the same answer on every
    such argument. *)
Theorem toBoolean_true_exactly :
  (forall value : Value,
      Utils.toBoolean value = true <->
      value = VString "true" \/ value = VString "1"
      \/ (exists q, value = VNumber (Finite q) /\ q == 1)
      \/ value = VBoolean true)
  /\ Utils.toBoolean VNull = false
  /\ Utils.toBoolean VUndefined = false
  /\ Utils.toBoolean (VString "false") = false
  /\ Utils.toBoolean (VString "0") = false
  /\ Utils.toBoolean (VNumber (Finite 0)) = false
  /\ Utils.toBoolean (VBoolean false) = false
  /\ (forall f, Utils.toBoolean (VFile f) = false)
  /\ (forall value : option FormDataEntryValue,
         Convert.toBoolean value = Utils.toBoolean (entry_value value)).
Proof.
  split; [ | repeat split; try reflexivity ].
  - intros value. unfold Utils.toBoolean.
    destruct value as [s | [q | | | ] | [ | ] | | | f]; simpl;
      rewrite ?orb_false_r, ?orb_true_r.
    + rewrite eqb_orb_true. split.
      * intros [-> | ->]; auto.
      * intros [Hs | [Hs | [[q [Hq _]] | Hs]]]; try discriminate;
          injection Hs as ->; auto.
    + rewrite Qeq_bool_iff. split.
      * intros Hq. right; right; left. exists q. split; [reflexivity | exact Hq].
      * intros [Hs | [Hs | [[q' [Hq' Hone]] | Hs]]]; try discriminate.
        injection Hq' as ->. exact Hone.
    + split; [discriminate | ].
      intros [Hs | [Hs | [[q' [Hq' _]] | Hs]]]; discriminate.
    + split; [discriminate | ].
      intros [Hs | [Hs | [[q' [Hq' _]] | Hs]]]; discriminate.
    + split; [discriminate | ].
      intros [Hs | [Hs | [[q' [Hq' _]] | Hs]]]; discriminate.
    + split; [intros _; auto | reflexivity].
    + split; [discriminate | ].
      intros [Hs | [Hs | [[q' [Hq' _]] | Hs]]]; discriminate.
    + split; [discriminate | ].
      intros [Hs | [Hs | [[q' [Hq' _]] | Hs]]]; discriminate.
    + split; [discriminate | ].
      intros [Hs | [Hs | [[q' [Hq' _]] | Hs]]]; discriminate.
    + split; [discriminate | ].
      intros [Hs | [Hs | [[q' [Hq' _]] | Hs]]]; discriminate.
  - intros [[s | f] | ]; unfold Utils.toBoolean; simpl;
      rewrite ?orb_false_r; reflexivity.
Qed.

(** C7. Format resolution: a requested format other than [auto] is
    returned as it is, except [jpg] which becomes [jpeg]; under [auto] the
    extensions jpeg, jpg, png, webp, avif, tiff, gif give jpeg, jpeg, png,
    webp, avif, tiff, gif and every other extension, the empty one
    included, gives jpeg; the result is never [auto] and never [jpg]. *)
Theorem normalizeFormat_resolution (format fallback : string) :
  (format <> "auto" ->
     normalizeFormat format fallback = if String.eqb format "jpg" then "jpeg" else format)
  /\ (format = "auto" ->
        (fallback = "jpeg" -> normalizeFormat format fallback = "jpeg")
        /\ (fallback = "jpg" -> normalizeFormat format fallback = "jpeg")
        /\ (fallback = "png" -> normalizeFormat format fallback = "png")
        /\ (fallback = "webp" -> normalizeFormat format fallback = "webp")
        /\ (fallback = "avif" -> normalizeFormat format fallback = "avif")
        /\ (fallback = "tiff" -> normalizeFormat format fallback = "tiff")
        /\ (fallback = "gif" -> normalizeFormat format fallback = "gif")
        /\ (~ In fallback known_extensions -> normalizeFormat format fallback = "jpeg"))
  /\ normalizeFormat format fallback <> "auto"
  /\ normalizeFormat format fallback <> "jpg".
Proof.
  unfold normalizeFormat.
  destruct (String.eqb_spec format "auto") as [Hauto | Hauto].
  - split; [intros Hne; contradiction | ].
    split.
    + intros _. repeat split; try (intros ->; reflexivity).
      intros Hnot. unfold known_extensions in Hnot. simpl in Hnot.
      repeat match goal with
             | |- context [String.eqb fallback ?lit] =>
                 destruct (String.eqb_spec fallback lit) as [Heq | _];
                 [ exfalso; apply Hnot; rewrite Heq; tauto | ]
             end.
      reflexivity.
    + repeat match goal with
             | |- context [String.eqb fallback ?lit] =>
                 destruct (String.eqb_spec fallback lit)
             end; split; discriminate.
  - split; [intros _; reflexivity | ].
    split; [intros Heq; contradiction | ].
    destruct (String.eqb_spec format "jpg") as [Hjpg | Hjpg].
    + split; discriminate.
    + split; assumption.
Qed.

(** The theorem at the three cases the specification lists. *)
Lemma normalizeFormat_resolution_witness :
  normalizeFormat "jpg" "png" = "jpeg"
  /\ normalizeFormat "auto" "jpg" = "jpeg"
  /\ normalizeFormat "auto" "" = "jpeg".
Proof.
  split; [ | split ].
  - destruct (normalizeFormat_resolution "jpg" "png") as [Hnot_auto _].
    apply Hnot_auto. discriminate.
  - destruct (normalizeFormat_resolution "auto" "jpg") as [_ [Hauto _]].
    destruct (Hauto eq_refl) as [_ [Hjpg _]]. apply Hjpg. reflexivity.
  - destruct (normalizeFormat_resolution "auto" "") as [_ [Hauto _]].
    destruct (Hauto eq_refl) as [_ [_ [_ [_ [_ [_ [_ Hother]]]]]]].
    apply Hother. unfold known_extensions. simpl.
    intros [Hf | [Hf | [Hf | [Hf | [Hf | [Hf | [Hf | []]]]]]]]; discriminate.
Defined.

End Normaliser.

(* ================================================================== *)
(** * Pipeline builder *)
(* ================================================================== *)

Section PipelineBuilder.

Lemma truthy_number_nonzero (v : option Z) :
  truthy_number v = true <-> nonzero v.
Proof.
  unfold truthy_number, nonzero. destruct v as [z | ].
  - rewrite negb_true_iff, Z.eqb_neq. split.
    + intros Hz. exists z. split; [reflexivity | exact Hz].
    + intros [z' [Hz' Hne]]. injection Hz' as ->. exact Hne.
  - split; [discriminate | ]. intros [z [Hz _]]. discriminate.
Qed.

(** The chain that [buildPipeline] issues, stage by stage. *)
Lemma buildPipeline_calls (buffer : Buffer) (options : Options.t) :
  calls (buildPipeline buffer options) =
  ([Rotate]
   ++ (if truthy_number (Options.width options) || truthy_number (Options.height options)
       then [Resize (or_undefined (Options.width options))
                    (or_undefined (Options.height options))
                    (or_string (Options.fit options) "inside") true]
       else [])
   ++ (if Options.keepMetadata options then [WithMetadata] else [])
   ++ (if truthy_string (Options.background options)
       then match Options.background options with
            | Some color => [Flatten color]
            | None => []
            end
       else []))%list.
Proof.
  unfold buildPipeline, truthy_string.
  destruct (truthy_number (Options.width options) || truthy_number (Options.height options));
    destruct (Options.keepMetadata options);
    destruct (Options.background options) as [color | ];
    try destruct (String.eqb color ""); reflexivity.
Qed.

(** Splits [before ++ x :: after = l] for a list [l] of known length. *)
Ltac split_chain H before :=
  destruct before as [ | ? before]; simpl in H;
  [ first [ discriminate H | inversion H; subst ]
  | first [ discriminate H
          | injection H as ? H; subst;
            first [ (destruct before; discriminate H) | split_chain H before ] ] ].

(** C8. In the chain that [buildPipeline] issues, the auto-rotation is the
    first call whatever the options are; a resize call is present exactly
    when the width or the height is present and not zero, it asks for the
    fit mode of the options, ['inside'] when there is none, and always
    forbids enlargement; rotation comes before every resize call, and a
    flatten call comes after the rotation and after the resize call. *)
Theorem buildPipeline_stages (buffer : Buffer) (options : Options.t) :
  hd_error (calls (buildPipeline buffer options)) = Some Rotate
  /\ (existsb is_resize (calls (buildPipeline buffer options)) = true <->
      nonzero (Options.width options) \/ nonzero (Options.height options))
  /\ (forall w h f e,
         In (Resize w h f e) (calls (buildPipeline buffer options)) ->
         e = true
         /\ (Options.fit options = None -> f = "inside")
         /\ (forall mode, Options.fit options = Some mode -> mode <> "" -> f = mode))
  /\ (forall before w h f e after,
         calls (buildPipeline buffer options) = (before ++ Resize w h f e :: after)%list ->
         In Rotate before /\ ~ In Rotate after)
  /\ (forall before color after,
         calls (buildPipeline buffer options) = (before ++ Flatten color :: after)%list ->
         In Rotate before
         /\ existsb is_resize before = existsb is_resize (calls (buildPipeline buffer options))
         /\ after = []).
Proof.
  rewrite buildPipeline_calls.
  split; [reflexivity | ].
  split.
  { rewrite <- !truthy_number_nonzero, <- orb_true_iff.
    destruct (truthy_number (Options.width options) || truthy_number (Options.height options));
      destruct (Options.keepMetadata options);
      destruct (truthy_string (Options.background options));
      destruct (Options.background options); simpl; tauto. }
  split.
  { intros w h f e Hin.
    assert (Hres : Resize w h f e =
                   Resize (or_undefined (Options.width options))
                          (or_undefined (Options.height options))
                          (or_string (Options.fit options) "inside") true).
    { destruct (truthy_number (Options.width options) || truthy_number (Options.height options));
        destruct (Options.keepMetadata options);
        destruct (truthy_string (Options.background options));
        destruct (Options.background options); simpl in Hin;
        repeat (destruct Hin as [Hin | Hin]; try discriminate Hin; try contradiction);
        symmetry; exact Hin. }
    injection Hres as -> -> -> ->.
    split; [reflexivity | ]. split.
    - intros ->. reflexivity.
    - intros mode -> Hmode. simpl.
      destruct (String.eqb_spec mode ""); [contradiction | reflexivity]. }
  split.
  { intros before w h f e after Hsplit.
    destruct (truthy_number (Options.width options) || truthy_number (Options.height options));
      destruct (Options.keepMetadata options);
      destruct (truthy_string (Options.background options));
      destruct (Options.background options); simpl in Hsplit;
      split_chain Hsplit before;
      (split; [simpl; auto | simpl; intros Hr; repeat (destruct Hr as [Hr | Hr]; try discriminate Hr); exact Hr]). }
  { intros before color after Hsplit.
    destruct (truthy_number (Options.width options) || truthy_number (Options.height options));
      destruct (Options.keepMetadata options);
      destruct (truthy_string (Options.background options));
      destruct (Options.background options); simpl in Hsplit;
      split_chain Hsplit before;
      (split; [simpl; auto | split; reflexivity]). }
Qed.

End PipelineBuilder.

(* ================================================================== *)
(** * Target-size search engine *)
(* ================================================================== *)

Section Loops.

Context {S : Type}.

(** A [for] loop of [n + 1] rounds is the loop of [n] rounds and then one
    more round. *)
Lemma for_loop_snoc (body : S -> Async S) (n : nat) :
  forall (s : S) (log : list EncodeCall),
    for_loop (Datatypes.S n) body s log = bind (for_loop n body s) body log.
Proof.
  induction n as [ | n IH]; intros s log.
  - simpl. unfold bind, ret. destruct (body s log) as [[s' | e] log']; reflexivity.
  - change (for_loop (Datatypes.S (Datatypes.S n)) body s log)
      with (bind (body s) (for_loop (Datatypes.S n) body) log).
    change (for_loop (Datatypes.S n) body s) with (bind (body s) (for_loop n body)).
    unfold bind.
    destruct (body s log) as [[s' | e] log']; [ | reflexivity].
    rewrite IH. reflexivity.
Qed.

End Loops.

Section Midpoint.

(** [Math.round] of the half of an integer is a floor division. *)
Lemma midpoint_div (low high : Z) : midpoint low high = (low + high + 1) / 2.
Proof.
  unfold midpoint, Math_round.
  rewrite (Zdiv_Qdiv (low + high + 1) 2).
  apply Qfloor_comp.
  rewrite !inject_Z_plus.
  unfold Qdiv. change (/ inject_Z 2) with (1 # 2). change (/ 2) with (1 # 2).
  change (inject_Z 1) with 1%Q.
  ring.
Qed.

End Midpoint.

Section Search.

Context {E : Externals}.
Variables (buffer : Buffer) (format : string) (targetBytes baseQuality : Z).
Variable options : Options.t.

Local Abbreviation body := (search_body buffer format targetBytes options).
Local Abbreviation loop n := (search_loop n buffer format targetBytes baseQuality options).
Local Abbreviation pipeline_at q := (encodeWithQuality buffer format q options).
Local Abbreviation quality_of i := (quality_at buffer format targetBytes baseQuality options i).
Local Abbreviation encoded_at i :=
  (round_buffer buffer format options i (quality_of i)).
Local Abbreviation diff_at i := (diff_to_target targetBytes (encoded_at i)).
Local Abbreviation in_range q := (29 <= q <= Z.max baseQuality 40 + 2).

(** One round of the loop: the call it logs, and the state it leaves when
    the codec answers. *)
Lemma search_body_run (st : SearchState) (log : list EncodeCall) :
  let quality := midpoint (low st) (high st) in
  let log' := (log ++ [{| call_quality := quality;
                          call_pipeline := pipeline_at quality |}])%list in
  match toBuffer (List.length log) (pipeline_at quality) with
  | Throw e => body st log = (Throw e, log')
  | Ok encoded =>
      exists st',
        body st log = (Ok st', log')
        /\ low st' = (if Z.gtb (length encoded) targetBytes then low st else quality + 2)
        /\ high st' = (if Z.gtb (length encoded) targetBytes then quality - 2 else high st)
        /\ bestBuffer st' =
           (if diff_lt (diff_to_target targetBytes encoded) (bestDiff st)
            then Some encoded else bestBuffer st)
        /\ bestDiff st' =
           (if diff_lt (diff_to_target targetBytes encoded) (bestDiff st)
            then Bytes (diff_to_target targetBytes encoded) else bestDiff st)
  end.
Proof.
  intros quality log'. unfold search_body, bind, await_toBuffer, diff_to_target.
  fold quality. fold log'.
  destruct (toBuffer (List.length log) (pipeline_at quality)) as [encoded | e];
    [ | reflexivity].
  destruct (diff_lt (Z.abs (length encoded - targetBytes)) (bestDiff st));
    destruct (Z.gtb (length encoded) targetBytes); unfold ret;
    eexists; (split; [reflexivity | ]); simpl; auto.
Qed.

(** The bounds stay close to each other and the midpoint stays in range. *)
Lemma midpoint_in_range (st : SearchState) :
  bounds_invariant baseQuality st -> in_range (midpoint (low st) (high st)).
Proof.
  unfold bounds_invariant. rewrite midpoint_div. intros Hinv.
  Z.div_mod_to_equations. lia.
Qed.

Lemma bounds_invariant_init : bounds_invariant baseQuality (search_init baseQuality).
Proof.
  unfold bounds_invariant, search_init. cbn [low high]. lia.
Qed.

Lemma bounds_invariant_step (st st' : SearchState) (over : bool) :
  bounds_invariant baseQuality st ->
  low st' = (if over then low st else midpoint (low st) (high st) + 2) ->
  high st' = (if over then midpoint (low st) (high st) - 2 else high st) ->
  bounds_invariant baseQuality st'.
Proof.
  unfold bounds_invariant. rewrite midpoint_div. intros Hinv Hlow Hhigh.
  rewrite Hlow, Hhigh. destruct over; Z.div_mod_to_equations; lia.
Qed.

(** Whatever the codec does: after [n] rounds at most [n] calls were made,
    every quality tried is in range, and a loop that is still running has
    made exactly [n] calls, keeps its bounds invariant and, past the first
    round, holds a best buffer. *)
Lemma search_loop_safe (n : nat) :
  (List.length (snd (loop n [])) <= n)%nat
  /\ Forall (fun q => in_range q) (qualities (snd (loop n [])))
  /\ (forall st, fst (loop n []) = Ok st ->
        List.length (snd (loop n [])) = n
        /\ bounds_invariant baseQuality st
        /\ (bestDiff st = POSITIVE_INFINITY \/ bestBuffer st <> None)
        /\ ((0 < n)%nat -> bestBuffer st <> None)).
Proof.
  induction n as [ | n IH].
  - simpl. split; [lia | ]. split; [constructor | ].
    intros st Hst. injection Hst as <-.
    split; [reflexivity | ]. split; [apply bounds_invariant_init | ].
    split; [left; reflexivity | lia].
  - unfold search_loop in *. rewrite for_loop_snoc. unfold bind.
    destruct (for_loop n body (search_init baseQuality) []) as [[st | e] log];
      simpl in IH; destruct IH as [Hlen [Hrange Hrun]].
    + destruct (Hrun st eq_refl) as [Hn [Hinv [Hbest _]]].
      pose proof (search_body_run st log) as Hbody. simpl in Hbody.
      pose proof (midpoint_in_range st Hinv) as Hq.
      destruct (toBuffer (List.length log) (pipeline_at (midpoint (low st) (high st))))
        as [encoded | e].
      * destruct Hbody as [st' [-> [Hlow [Hhigh [Hbuf _]]]]]. simpl.
        rewrite length_app. simpl. split; [lia | ].
        split.
        { unfold qualities. rewrite map_app. apply Forall_app. split; [exact Hrange | ].
          constructor; [exact Hq | constructor]. }
        intros st'' Hst. injection Hst as <-.
        split; [lia | ]. split.
        { exact (bounds_invariant_step st st' _ Hinv Hlow Hhigh). }
        assert (Hsome : bestBuffer st' <> None).
        { rewrite Hbuf.
          destruct (diff_lt (diff_to_target targetBytes encoded) (bestDiff st)) eqn:Hlt;
            [discriminate | ].
          destruct Hbest as [Hinf | Hbest]; [ | exact Hbest].
          rewrite Hinf in Hlt. discriminate Hlt. }
        split; [right; exact Hsome | intros _; exact Hsome].
      * rewrite Hbody. simpl. rewrite length_app. simpl. split; [lia | ].
        split; [ | intros st' Hst; discriminate Hst].
        unfold qualities. rewrite map_app. apply Forall_app. split; [exact Hrange | ].
        constructor; [exact Hq | constructor].
    + simpl. split; [lia | ]. split; [exact Hrange | ].
      intros st Hst. discriminate Hst.
Qed.

Local Abbreviation call_of i := (call_at buffer format targetBytes baseQuality options i).

(** When the codec answers every call: the state and the log after [n]
    rounds.  The log holds the calls of rounds [0 .. n-1], the bounds are
    those of the recurrence, and the best buffer is the one of the first
    round whose distance to the target is minimal. *)
Lemma search_loop_trace (n : nat) :
  codec_succeeds E ->
  exists st,
    loop n [] = (Ok st, map (fun i => call_of i) (seq 0 n))
    /\ low st = fst (bounds_before buffer format targetBytes baseQuality options n)
    /\ high st = snd (bounds_before buffer format targetBytes baseQuality options n)
    /\ ((n = 0%nat /\ bestBuffer st = None /\ bestDiff st = POSITIVE_INFINITY)
        \/ (exists k, (k < n)%nat
              /\ bestBuffer st = Some (encoded_at k)
              /\ bestDiff st = Bytes (diff_at k)
              /\ forall j, (j < n)%nat ->
                   diff_at k <= diff_at j /\ ((j < k)%nat -> diff_at k < diff_at j))).
Proof.
  intros Hok. induction n as [ | n IH].
  - exists (search_init baseQuality). simpl. repeat split. left. repeat split.
  - destruct IH as [st [Hrun [Hlow [Hhigh Hbest]]]].
    unfold search_loop in *. rewrite for_loop_snoc. unfold bind. rewrite Hrun.
    pose proof (search_body_run st (map (fun i => call_of i) (seq 0 n))) as Hbody.
    simpl in Hbody. rewrite length_map, length_seq in Hbody.
    assert (Hq : midpoint (low st) (high st) = quality_of n).
    { unfold quality_at. rewrite Hlow, Hhigh. reflexivity. }
    rewrite Hq in Hbody.
    assert (Henc : toBuffer n (pipeline_at (quality_of n)) = Ok (encoded_at n)).
    { unfold round_buffer. destruct (Hok n (pipeline_at (quality_of n))) as [b ->].
      reflexivity. }
    rewrite Henc in Hbody.
    destruct Hbody as [st' [Hstep [Hlow' [Hhigh' [Hbuf Hdiff]]]]].
    exists st'. split.
    { rewrite Hstep. rewrite seq_S, map_app. reflexivity. }
    split.
    { rewrite Hlow', Hlow. cbn [bounds_before]. fold (quality_of n).
      destruct (Z.gtb (length (encoded_at n)) targetBytes); reflexivity. }
    split.
    { rewrite Hhigh', Hhigh. cbn [bounds_before]. fold (quality_of n).
      destruct (Z.gtb (length (encoded_at n)) targetBytes); reflexivity. }
    right.
    destruct Hbest as [[Hzero [Hnone Hinf]] | [k [Hk [Hsome [Hbytes Hmin]]]]].
    + exists 0%nat. subst n. rewrite Hinf in Hbuf, Hdiff. simpl in Hbuf, Hdiff.
      split; [lia | ]. split; [exact Hbuf | ]. split; [exact Hdiff | ].
      intros j Hj. assert (j = 0%nat) as -> by lia. split; lia.
    + rewrite Hbytes in Hbuf, Hdiff. simpl in Hbuf, Hdiff.
      destruct (Z.ltb_spec (diff_at n) (diff_at k)) as [Hlt | Hge].
      * exists n. split; [lia | ]. split; [exact Hbuf | ]. split; [exact Hdiff | ].
        intros j Hj. destruct (Nat.eq_dec j n) as [-> | Hne].
        -- split; lia.
        -- assert (Hjn : (j < n)%nat) by lia.
           destruct (Hmin j Hjn) as [Hle _]. split; lia.
      * exists k. split; [lia | ].
        split; [rewrite Hbuf; exact Hsome | ].
        split; [exact Hdiff | ].
        intros j Hj. destruct (Nat.eq_dec j n) as [-> | Hne].
        -- split; lia.
        -- apply Hmin. lia.
Qed.

(** When the codec answers every call, the search returns the buffer of
    the first round that is closest to the target, after the eight calls
    of the loop and no other. *)
Lemma encodeToTargetSize_run :
  codec_succeeds E ->
  exists k,
    (k < 8)%nat
    /\ encodeToTargetSize buffer format targetBytes baseQuality options [] =
       (Ok (encoded_at k), map (fun i => call_of i) (seq 0 8))
    /\ forall j, (j < 8)%nat ->
         diff_at k <= diff_at j /\ ((j < k)%nat -> diff_at k < diff_at j).
Proof.
  intros Hok.
  destruct (search_loop_trace 8 Hok) as [st [Hrun [_ [_ Hbest]]]].
  destruct Hbest as [[Hzero _] | [k [Hk [Hsome [_ Hmin]]]]]; [discriminate Hzero | ].
  exists k. split; [exact Hk | ]. split; [ | exact Hmin].
  unfold encodeToTargetSize, bind. rewrite Hrun, Hsome. reflexivity.
Qed.

Lemma toBuffer_encoded_at (i : nat) :
  codec_succeeds E -> toBuffer i (pipeline_at (quality_of i)) = Ok (encoded_at i).
Proof.
  intros Hok. unfold round_buffer.
  destruct (Hok i (pipeline_at (quality_of i))) as [b ->]. reflexivity.
Qed.

Lemma iteration_buffer_trace (n j : nat) :
  codec_succeeds E -> (j < n)%nat ->
  iteration_buffer (map (fun i => call_of i) (seq 0 n)) j = Some (encoded_at j).
Proof.
  intros Hok Hj. unfold iteration_buffer.
  rewrite nth_error_map, nth_error_seq.
  destruct (Nat.ltb_spec j n) as [_ | Hge]; [ | lia].
  cbn [option_map Nat.add call_at call_pipeline].
  rewrite (toBuffer_encoded_at j Hok). reflexivity.
Qed.


(** Every call of the loop hands the codec the pipeline that
    [encodeWithQuality] builds for the quality it logs. *)
Lemma search_loop_calls (n : nat) :
  Forall (fun call => call_pipeline call = pipeline_at (call_quality call))
    (snd (loop n [])).
Proof.
  induction n as [ | n IH].
  - constructor.
  - unfold search_loop in *. rewrite for_loop_snoc. unfold bind.
    destruct (for_loop n body (search_init baseQuality) []) as [[st | e] log];
      simpl in IH; [ | exact IH].
    pose proof (search_body_run st log) as Hbody. simpl in Hbody.
    destruct (toBuffer (List.length log) (pipeline_at (midpoint (low st) (high st))))
      as [encoded | e].
    + destruct Hbody as [st' [-> _]]. simpl.
      apply Forall_app. split; [exact IH | ]. constructor; [reflexivity | constructor].
    + rewrite Hbody. simpl.
      apply Forall_app. split; [exact IH | ]. constructor; [reflexivity | constructor].
Qed.

(** The loop logs a call in its first round. *)
Lemma search_loop_calls_nonempty (n : nat) : snd (loop (Datatypes.S n) []) <> [].
Proof.
  induction n as [ | n IH].
  - unfold search_loop. rewrite for_loop_snoc. unfold bind. cbn [for_loop ret].
    pose proof (search_body_run (search_init baseQuality) []) as Hbody.
    cbv zeta in Hbody.
    destruct (toBuffer (List.length (@nil EncodeCall))
                (pipeline_at (midpoint (low (search_init baseQuality))
                                       (high (search_init baseQuality)))))
      as [encoded | e].
    + destruct Hbody as [st' [-> _]]. discriminate.
    + rewrite Hbody. discriminate.
  - unfold search_loop in *. rewrite for_loop_snoc. unfold bind.
    destruct (for_loop (Datatypes.S n) body (search_init baseQuality) [])
      as [[st | e] log]; simpl in IH; [ | exact IH].
    pose proof (search_body_run st log) as Hbody. simpl in Hbody.
    destruct (toBuffer (List.length log) (pipeline_at (midpoint (low st) (high st))))
      as [encoded | e].
    + destruct Hbody as [st' [-> _]]. simpl. intros Hnil.
      apply app_eq_nil in Hnil. destruct Hnil as [_ Hnil]. discriminate Hnil.
    + rewrite Hbody. simpl. intros Hnil.
      apply app_eq_nil in Hnil. destruct Hnil as [_ Hnil]. discriminate Hnil.
Qed.

Lemma encodeToTargetSize_calls :
  snd (encodeToTargetSize buffer format targetBytes baseQuality options []) <> []
  /\ Forall (fun call => call_pipeline call = pipeline_at (call_quality call))
       (snd (encodeToTargetSize buffer format targetBytes baseQuality options [])).
Proof.
  pose proof (search_loop_calls 8) as Hcalls.
  pose proof (search_loop_calls_nonempty 7) as Hne.
  unfold encodeToTargetSize, bind.
  destruct (loop 8 []) as [[st | e] log]; simpl in *; [ | split; assumption].
  destruct (bestBuffer st) as [best | ]; [split; assumption | ].
  unfold await_toBuffer. simpl. split.
  - intros Hnil. apply app_eq_nil in Hnil. destruct Hnil as [_ Hnil]. discriminate Hnil.
  - apply Forall_app. split; [exact Hcalls | ]. constructor; [reflexivity | constructor].
Qed.

End Search.


(** C4, as stated, fails: with base quality 40 and a codec whose output
    always exceeds the target of 1024 bytes, the search encodes at quality
    29. *)
Lemma qualities_not_clamped :
  ~ @qualities_clamped (codec_of_size 2048) [] "jpeg" 1024 40 plain_options.
Proof.
  unfold qualities_clamped. intros Hall.
  rewrite Forall_forall in Hall.
  assert (Hin : In 29 (qualities (snd (@encodeToTargetSize (codec_of_size 2048)
                                          [] "jpeg" 1024 40 plain_options [])))).
  { vm_compute. tauto. }
  specialize (Hall 29 Hin). lia.
Qed.

(* ================================================================== *)
(** * The [POST] handler *)
(* ================================================================== *)

Section Strings.

Lemma includes_In (l : list string) (x : string) :
  includes l x = true <-> In x l.
Proof.
  unfold includes. rewrite existsb_exists. split.
  - intros [y [Hin Heq]]. apply String.eqb_eq in Heq. subst y. exact Hin.
  - intros Hin. exists x. split; [exact Hin | apply String.eqb_refl].
Qed.

Lemma or_string_truthy (v : option string) (fallback : string) :
  fallback <> "" -> truthy_string (Some (or_string v fallback)) = true.
Proof.
  intros Hne. unfold or_string, truthy_string.
  destruct v as [s | ].
  - destruct (String.eqb_spec s "") as [-> | Hs].
    + apply negb_true_iff, String.eqb_neq. exact Hne.
    + apply negb_true_iff, String.eqb_neq. exact Hs.
  - apply negb_true_iff, String.eqb_neq. exact Hne.
Qed.

Lemma append_assoc (a b c : string) : (a ++ b) ++ c = a ++ (b ++ c).
Proof.
  induction a as [ | x a IH]; simpl; [reflexivity | rewrite IH; reflexivity].
Qed.

Lemma all_not_slash_dot_append_dot (a b : string) :
  all_not_slash_dot (a ++ "." ++ b) = false.
Proof.
  induction a as [ | x a IH]; simpl.
  - reflexivity.
  - change ("." ++ b) with (String "."%char b) in IH. rewrite IH.
    apply andb_false_r.
Qed.

(** A match of [/\.[^/.]+$/] at the start of a text that still holds a
    further ['.'] is impossible. *)
Lemma matches_extension_append_dot (x : ascii) (a b : string) :
  matches_extension (String x (a ++ "." ++ b)) = false.
Proof.
  unfold matches_extension.
  destruct (Ascii.eqb_spec x "."%char) as [-> | Hx].
  - pose proof (all_not_slash_dot_append_dot a b) as Hall.
    destruct a as [ | y a]; simpl in *.
    + reflexivity.
    + exact Hall.
  - destruct x as [[ | ] [ | ] [ | ] [ | ] [ | ] [ | ] [ | ] [ | ]];
      try reflexivity; contradiction Hx; reflexivity.
Qed.

(** The replacement removes a final extension that is not empty and holds
    neither ['.'] nor ['/']. *)
Lemma replace_extension_removes (base ext : string) :
  ext <> "" -> all_not_slash_dot ext = true ->
  replace_extension (base ++ "." ++ ext) = base.
Proof.
  intros Hne Hall. induction base as [ | x base IH].
  - change ("" ++ "." ++ ext) with (String "."%char ext).
    destruct ext as [ | c ext]; [contradiction | ].
    unfold replace_extension. simpl in Hall |- *. rewrite Hall. reflexivity.
  - change ((String x base) ++ "." ++ ext) with (String x (base ++ "." ++ ext)).
    cbn [replace_extension]. rewrite matches_extension_append_dot.
    fold replace_extension. rewrite IH. reflexivity.
Qed.

(** The replacement leaves every other name as it is. *)
Lemma replace_extension_keeps (name : string) :
  (forall base ext, name = base ++ "." ++ ext -> ext = "" \/ all_not_slash_dot ext = false) ->
  replace_extension name = name.
Proof.
  induction name as [ | x name IH]; intros Hno.
  - reflexivity.
  - cbn [replace_extension].
    destruct (matches_extension (String x name)) eqn:Hm.
    + exfalso. unfold matches_extension in Hm.
      destruct (Ascii.eqb_spec x "."%char) as [-> | Hx].
      * destruct name as [ | c name]; [discriminate Hm | ].
        destruct (Hno "" (String c name) eq_refl) as [Hempty | Hall].
        -- discriminate Hempty.
        -- simpl in Hall. rewrite Hall in Hm. discriminate Hm.
      * destruct x as [[ | ] [ | ] [ | ] [ | ] [ | ] [ | ] [ | ] [ | ]];
          try discriminate Hm. contradiction Hx. reflexivity.
    + fold replace_extension. rewrite IH; [reflexivity | ].
      intros base ext Hname. apply (Hno (String x base) ext).
      rewrite Hname. reflexivity.
Qed.

End Strings.

Section Handler.

Context {E : Externals}.
Variable formData : FormData.

Lemma encodeWithQuality_flatten
    (buffer : Buffer) (format : string) (quality : Z) (options : Options.t) :
  existsb is_flatten (calls (encodeWithQuality buffer format quality options)) =
  truthy_string (Options.background options).
Proof.
  assert (Hchain : forall c, is_flatten c = false ->
            existsb is_flatten (calls (chain (buildPipeline buffer options) c)) =
            truthy_string (Options.background options)).
  { intros c Hc. unfold chain. cbn [calls].
    rewrite existsb_app. cbn [existsb]. rewrite Hc, !orb_false_r.
    rewrite buildPipeline_calls.
    destruct (truthy_number (Options.width options) || truthy_number (Options.height options));
      destruct (Options.keepMetadata options);
      destruct (Options.background options) as [color | ]; simpl;
      try destruct (String.eqb color ""); reflexivity. }
  unfold encodeWithQuality.
  repeat match goal with
         | |- context [if String.eqb format ?lit then _ else _] =>
             destruct (String.eqb format lit)
         end; apply Hchain; reflexivity.
Qed.

Lemma encoderOptions_background (file : File) :
  truthy_string (Options.background (encoderOptions formData file)) =
  shouldFlatten formData file.
Proof.
  unfold encoderOptions. cbn [Options.background].
  destruct (shouldFlatten formData file); [ | reflexivity].
  unfold background. apply or_string_truthy. discriminate.
Qed.

(** The encode calls of one file's job. *)
Lemma convert_file_calls (file : File) :
  snd (convert_file formData file []) <> []
  /\ Forall (fun call =>
               call_pipeline call =
               encodeWithQuality (file_bytes file) (outputFormat formData file)
                 (call_quality call) (encoderOptions formData file))
       (snd (convert_file formData file [])).
Proof.
  unfold convert_file, bind.
  destruct (Z.gtb (targetSizeKB formData) 0).
  - pose proof (encodeToTargetSize_calls (file_bytes file) (outputFormat formData file)
                  (targetSizeKB formData * 1024) (quality formData)
                  (encoderOptions formData file)) as [Hne Hcalls].
    destruct (encodeToTargetSize (file_bytes file) (outputFormat formData file)
                (targetSizeKB formData * 1024) (quality formData)
                (encoderOptions formData file) []) as [[encoded | e] log];
      simpl in *; split; assumption.
  - unfold await_toBuffer. cbn [List.length app].
    destruct (toBuffer 0 _) as [encoded | e]; simpl;
      (split; [discriminate | constructor; [reflexivity | constructor]]).
Qed.

Lemma job_name (file : File) (output : Output) :
  job formData file = Ok output -> name output = outputName formData file.
Proof.
  unfold job, convert_file, bind.
  match goal with
  | |- fst (match ?run with _ => _ end) = _ -> _ =>
      destruct run as [[encoded | e] log]
  end; simpl; intros Hjob; [ | discriminate Hjob].
  injection Hjob as <-. reflexivity.
Qed.

(** C9. In the job of a file every encode call (there is at least one)
    hands the codec a chain with a flatten call exactly when the flatten
    flag of the form is true and the resolved output format is none of
    png, webp, avif, gif; for a resolved format in that set no chain of
    the job holds a flatten call, whatever the flag and the background
    are. *)
Theorem flatten_only_without_alpha (file : File) :
  snd (convert_file formData file []) <> []
  /\ (forall call,
         In call (snd (convert_file formData file [])) ->
         (existsb is_flatten (calls (call_pipeline call)) = true <->
          flatten formData = true
          /\ ~ In (outputFormat formData file) ["png"; "webp"; "avif"; "gif"]))
  /\ (In (outputFormat formData file) ["png"; "webp"; "avif"; "gif"] ->
      forall call c,
        In call (snd (convert_file formData file [])) ->
        In c (calls (call_pipeline call)) ->
        is_flatten c = false).
Proof.
  destruct (convert_file_calls file) as [Hne Hcalls].
  rewrite Forall_forall in Hcalls.
  assert (Hflat : forall call,
             In call (snd (convert_file formData file [])) ->
             existsb is_flatten (calls (call_pipeline call)) = shouldFlatten formData file).
  { intros call Hin. rewrite (Hcalls call Hin).
    rewrite encodeWithQuality_flatten. apply encoderOptions_background. }
  assert (Hshould : shouldFlatten formData file = true <->
                    flatten formData = true
                    /\ ~ In (outputFormat formData file) ["png"; "webp"; "avif"; "gif"]).
  { unfold shouldFlatten. rewrite andb_true_iff, negb_true_iff.
    rewrite <- (includes_In ["png"; "webp"; "avif"; "gif"]).
    unfold hasAlphaFormats.
    destruct (includes ["png"; "webp"; "avif"; "gif"] (outputFormat formData file));
      intuition congruence. }
  split; [exact Hne | ]. split.
  - intros call Hin. rewrite (Hflat call Hin). exact Hshould.
  - intros Halpha call c Hin Hc.
    destruct (is_flatten c) eqn:Hfl; [ | reflexivity].
    exfalso.
    assert (Hex : existsb is_flatten (calls (call_pipeline call)) = true).
    { apply existsb_exists. exists c. split; assumption. }
    rewrite (Hflat call Hin) in Hex. apply Hshould in Hex.
    destruct Hex as [_ Hnot]. exact (Hnot Halpha).
Qed.

(** C10, as amended.  The name of a converted file is its base, a dot and
    the name of the resolved format, [jpg] for [jpeg].  The base is the
    input name without its final dot-extension when that extension is not
    empty and holds no ['/']; it is the whole input name when there is no
    such extension: no dot, nothing after the last dot, or a ['/'] after
    it. *)
Theorem output_name_of_job (file : File) (output : Output) :
  job formData file = Ok output ->
  let extension :=
    if String.eqb (outputFormat formData file) "jpeg" then "jpg"
    else outputFormat formData file in
  (forall base ext,
      file_name file = base ++ "." ++ ext ->
      ext <> "" -> all_not_slash_dot ext = true ->
      name output = base ++ "." ++ extension)
  /\ ((forall base ext,
          file_name file = base ++ "." ++ ext ->
          ext = "" \/ all_not_slash_dot ext = false) ->
      name output = file_name file ++ "." ++ extension).
Proof.
  intros Hjob extension. rewrite (job_name file output Hjob).
  unfold outputName. fold extension.
  split.
  - intros base ext Hname Hne Hall. rewrite Hname.
    rewrite replace_extension_removes by assumption. reflexivity.
  - intros Hno. rewrite replace_extension_keeps by exact Hno. reflexivity.
Qed.

Lemma Promise_all_rejects {A : Type} (l : list (Result A)) (e : Exception) :
  In (Throw e) l ->
  exists e', Promise_all l = Throw e' /\ In (Throw e') l.
Proof.
  induction l as [ | r l IH]; intros Hin; [contradiction | ].
  destruct r as [a | e0].
  - destruct Hin as [Hr | Hin]; [discriminate Hr | ].
    destruct (IH Hin) as [e' [Hall Hin']].
    exists e'. simpl. rewrite Hall. split; [reflexivity | right; exact Hin'].
  - exists e0. split; [reflexivity | left; reflexivity].
Qed.

(** C5, as amended.  When the job of one file of the request throws, the
    handler answers with one JSON error of status 500 and delivers no
    output, also not those of the files whose jobs completed; when no
    other job throws something else, the error carries the message of
    that failure. *)
Theorem codec_failure_fails_request (file : File) (e : Exception) :
  In file (files formData) ->
  job formData file = Throw e ->
  (exists message, POST formData = JsonError message 500)
  /\ (forall output, ~ delivered (POST formData) output)
  /\ ((forall other e',
          In other (files formData) -> job formData other = Throw e' -> e' = e) ->
      POST formData =
      JsonError (match e with
                 | Error message => message
                 | NonError => "Failed to process images."
                 end) 500).
Proof.
  intros Hin Hjob.
  assert (Hth : In (Throw e) (map (job formData) (files formData))).
  { rewrite <- Hjob. apply in_map. exact Hin. }
  destruct (Promise_all_rejects _ e Hth) as [e' [Hall Hin']].
  assert (Hpost : POST formData =
                  JsonError (match e' with
                             | Error message => message
                             | NonError => "Failed to process images."
                             end) 500).
  { unfold POST. rewrite Hall.
    destruct (files formData); [contradiction | reflexivity]. }
  split; [eexists; exact Hpost | ].
  split.
  - intros output. rewrite Hpost. simpl. tauto.
  - intros Honly. rewrite Hpost.
    apply in_map_iff in Hin'. destruct Hin' as [other [Hother Hin_other]].
    rewrite (Honly other e' Hin_other Hother). reflexivity.
Qed.

End Handler.

(** A batch in which the codec throws on the second file. *)
Lemma codec_failure_fails_request_witness :
  (exists message,
      @POST codec_rejecting_empty (form_of_files [good_file; bad_file]) =
      JsonError message 500)
  /\ (forall output,
        ~ delivered (@POST codec_rejecting_empty (form_of_files [good_file; bad_file]))
            output)
  /\ ((forall other e',
          In other (files (form_of_files [good_file; bad_file])) ->
          @job codec_rejecting_empty (form_of_files [good_file; bad_file]) other = Throw e' ->
          e' = Error "Input Buffer is empty") ->
      @POST codec_rejecting_empty (form_of_files [good_file; bad_file]) =
      JsonError "Input Buffer is empty" 500).
Proof.
  apply (@codec_failure_fails_request codec_rejecting_empty
           (form_of_files [good_file; bad_file]) bad_file (Error "Input Buffer is empty")).
  - simpl. right. left. reflexivity.
  - reflexivity.
Defined.

(** C5, as stated, fails: in a batch of a sound and a broken file the
    conversion of the sound file completes, and its result does not
    reach the caller. *)
Lemma failure_does_not_stay_with_its_job :
  ~ @failure_stays_with_its_job codec_rejecting_empty (form_of_files [good_file; bad_file]).
Proof.
  unfold failure_stays_with_its_job. intros Hclaim.
  assert (Hfails : exists failing e,
             In failing (files (form_of_files [good_file; bad_file]))
             /\ @job codec_rejecting_empty (form_of_files [good_file; bad_file]) failing =
                Throw e).
  { exists bad_file, (Error "Input Buffer is empty").
    split; [simpl; right; left; reflexivity | reflexivity]. }
  specialize (Hclaim Hfails good_file
                {| name := "photo.png";
                   buffer := file_bytes good_file;
                   mime := Some "image/png" |}).
  apply Hclaim.
  - simpl. left. reflexivity.
  - reflexivity.
Qed.

(** The name of the output of a file with an ordinary extension. *)
Lemma output_name_of_job_witness :
  name {| name := "photo.png"; buffer := file_bytes good_file; mime := Some "image/png" |} =
  "photo" ++ "." ++ "png".
Proof.
  assert (Hjob : @job codec_rejecting_empty (form_of_files [good_file]) good_file =
                 Ok {| name := "photo.png";
                       buffer := file_bytes good_file;
                       mime := Some "image/png" |}) by reflexivity.
  destruct (@output_name_of_job codec_rejecting_empty (form_of_files [good_file])
              good_file _ Hjob) as [Hremoved _].
  apply (Hremoved "photo" "png").
  - reflexivity.
  - discriminate.
  - reflexivity.
Defined.

(** C10, as stated, fails: the name [scan.] ends with a dot, nothing is
    removed from it, and the output is named [scan..jpg]. *)
Lemma final_extension_not_replaced :
  ~ @final_extension_replaced codec_rejecting_empty
      (form_of_files [trailing_dot_file]) trailing_dot_file.
Proof.
  unfold final_extension_replaced. intros Hclaim.
  specialize (Hclaim {| name := "scan..jpg";
                        buffer := file_bytes trailing_dot_file;
                        mime := Some "image/jpeg" |} eq_refl).
  destruct Hclaim as [_ Hsplit].
  specialize (Hsplit "scan" "" eq_refl eq_refl).
  discriminate Hsplit.
Qed.

(** A chain with a resize and a flatten call: the resize call forbids
    enlargement and asks for ['inside'], and nothing follows the flatten
    call. *)
Lemma buildPipeline_stages_witness :
  existsb is_resize (calls (buildPipeline [] wide_flat_options)) = true
  /\ (forall w h f e,
         In (Resize w h f e) (calls (buildPipeline [] wide_flat_options)) ->
         e = true /\ f = "inside").
Proof.
  destruct (buildPipeline_stages [] wide_flat_options)
    as [_ [Hresize [Hfit _]]].
  split.
  - apply Hresize. left. exists 800. split; [reflexivity | discriminate].
  - intros w h f e Hin. destruct (Hfit w h f e Hin) as [He [Hinside _]].
    split; [exact He | apply Hinside; reflexivity].
Defined.

(** A job whose chain is flattened: jpg output with the flag set. *)
Lemma flatten_only_without_alpha_witness :
  Forall (fun call => existsb is_flatten (calls (call_pipeline call)) = true)
    (snd (@convert_file codec_rejecting_empty flatten_jpg_form good_file [])).
Proof.
  apply Forall_forall. intros call Hin.
  destruct (@flatten_only_without_alpha codec_rejecting_empty flatten_jpg_form good_file)
    as [_ [Hiff _]].
  apply (Hiff call Hin). split.
  - reflexivity.
  - simpl. intros [Hf | [Hf | [Hf | [Hf | []]]]]; discriminate Hf.
Defined.

(* ================================================================== *)
(** * File names and extensions *)
(* ================================================================== *)

Section Extensions.

Lemma split_not_nil (sep : ascii) (s : string) : split sep s <> [].
Proof.
  destruct s as [ | c s]; simpl; [discriminate | ].
  destruct (Ascii.eqb c sep); [discriminate | ].
  destruct (split sep s); discriminate.
Qed.

Lemma split_without_dot (s : string) : has_dot s = false -> split "." s = [s].
Proof.
  induction s as [ | c s IH]; simpl; intros Hdot; [reflexivity | ].
  apply orb_false_iff in Hdot. destruct Hdot as [Hc Hs].
  rewrite Hc, (IH Hs). reflexivity.
Qed.

Lemma last_cons_not_nil {A : Type} (x d : A) (l : list A) :
  l <> [] -> last (x :: l) d = last l d.
Proof.
  destruct l as [ | y l]; [contradiction | reflexivity].
Qed.

(** Splitting at the dots of [base.ext] gives at least two parts, and the
    last one is the last part of [ext]. *)
Lemma split_append_dot (base ext : string) :
  (1 < List.length (split "." (base ++ "." ++ ext)))%nat
  /\ last (split "." (base ++ "." ++ ext)) "" = last (split "." ext) "".
Proof.
  induction base as [ | c base [IHlen IHlast]].
  - change ("" ++ "." ++ ext) with (String "."%char ext).
    cbn [split]. rewrite Ascii.eqb_refl.
    pose proof (split_not_nil "." ext) as Hne.
    split.
    + destruct (split "." ext); [contradiction | simpl; lia].
    + apply last_cons_not_nil. exact Hne.
  - change (String c base ++ "." ++ ext) with (String c (base ++ "." ++ ext)).
    cbn [split].
    destruct (Ascii.eqb c ".").
    + split; [cbn [List.length]; lia | ].
      rewrite last_cons_not_nil by apply split_not_nil. exact IHlast.
    + destruct (split "." (base ++ "." ++ ext)) as [ | p ps] eqn:Hsplit.
      * simpl in IHlen. lia.
      * split; [exact IHlen | ].
        destruct ps as [ | q ps]; [simpl in IHlen; lia | ].
        rewrite <- IHlast. reflexivity.
Qed.

(** A name that holds a dot ends with a dot and a text without dots. *)
Lemma has_dot_split (s : string) :
  has_dot s = true ->
  exists base ext, s = base ++ "." ++ ext /\ has_dot ext = false.
Proof.
  induction s as [ | c s IH]; simpl; intros Hdot; [discriminate | ].
  destruct (has_dot s) eqn:Hs.
  - destruct (IH eq_refl) as [base [ext [-> Hext]]].
    exists (String c base), ext. split; [reflexivity | exact Hext].
  - rewrite orb_false_r in Hdot. apply Ascii.eqb_eq in Hdot. subst c.
    exists "", s. split; [reflexivity | exact Hs].
Qed.

Lemma lower_ascii_dot (c : ascii) : Ascii.eqb (lower_ascii c) "." = Ascii.eqb c ".".
Proof.
  destruct c as [[ | ] [ | ] [ | ] [ | ] [ | ] [ | ] [ | ] [ | ]]; reflexivity.
Qed.

Lemma lower_ascii_slash (c : ascii) : Ascii.eqb (lower_ascii c) "/" = Ascii.eqb c "/".
Proof.
  destruct c as [[ | ] [ | ] [ | ] [ | ] [ | ] [ | ] [ | ] [ | ]]; reflexivity.
Qed.

Lemma lower_ascii_idempotent (c : ascii) : lower_ascii (lower_ascii c) = lower_ascii c.
Proof.
  destruct c as [[ | ] [ | ] [ | ] [ | ] [ | ] [ | ] [ | ] [ | ]]; reflexivity.
Qed.

Lemma has_dot_toLowerCase (s : string) : has_dot (toLowerCase s) = has_dot s.
Proof.
  induction s as [ | c s IH]; simpl; [reflexivity | ].
  rewrite lower_ascii_dot, IH. reflexivity.
Qed.

Lemma toLowerCase_idempotent (s : string) : toLowerCase (toLowerCase s) = toLowerCase s.
Proof.
  induction s as [ | c s IH]; simpl; [reflexivity | ].
  rewrite lower_ascii_idempotent, IH. reflexivity.
Qed.

Lemma all_not_slash_dot_toLowerCase (s : string) :
  all_not_slash_dot (toLowerCase s) = all_not_slash_dot s.
Proof.
  induction s as [ | c s IH]; simpl; [reflexivity | ].
  unfold not_slash_dot. rewrite lower_ascii_dot, lower_ascii_slash, IH. reflexivity.
Qed.

Lemma all_not_slash_dot_has_dot (s : string) :
  all_not_slash_dot s = true -> has_dot s = false.
Proof.
  induction s as [ | c s IH]; simpl; [reflexivity | ].
  unfold not_slash_dot. intros Hall.
  apply andb_true_iff in Hall. destruct Hall as [Hc Hs].
  apply negb_true_iff, orb_false_iff in Hc. destruct Hc as [_ Hc].
  rewrite Hc, (IH Hs). reflexivity.
Qed.

Lemma getExtension_without_dot (name : string) :
  has_dot name = false -> Convert.getExtension name = "".
Proof.
  intros Hdot. unfold Convert.getExtension.
  rewrite (split_without_dot name Hdot). reflexivity.
Qed.

Lemma getExtension_after_dot (base ext : string) :
  has_dot ext = false -> Convert.getExtension (base ++ "." ++ ext) = toLowerCase ext.
Proof.
  intros Hext. unfold Convert.getExtension.
  destruct (split_append_dot base ext) as [Hlen Hlast].
  apply Nat.ltb_lt in Hlen. rewrite Hlen, Hlast.
  rewrite (split_without_dot ext Hext). reflexivity.
Qed.

(** X1. [getExtension] gives the empty text for a name without a dot, and
    for a name [base.ext] whose [ext] is ASCII text without a dot it gives
    [ext] with its capitals lowered (the empty text when the name ends
    with the dot); the copy of [@/lib/utils] gives the same. *)
Theorem getExtension_last_part (name : string) :
  (has_dot name = false -> Convert.getExtension name = "")
  /\ (forall base ext,
         name = base ++ "." ++ ext -> has_dot ext = false -> is_ascii ext = true ->
         Convert.getExtension name = toLowerCase ext)
  /\ Utils.getExtension name = Convert.getExtension name.
Proof.
  split; [ | split; [ | reflexivity]].
  - apply getExtension_without_dot.
  - intros base ext -> Hext _. apply getExtension_after_dot. exact Hext.
Qed.

(** X2. The extension that [getExtension] returns holds no dot and no
    ASCII capital: lowering it again changes nothing. *)
Theorem getExtension_plain (name : string) :
  has_dot (Convert.getExtension name) = false
  /\ toLowerCase (Convert.getExtension name) = Convert.getExtension name.
Proof.
  destruct (has_dot name) eqn:Hdot.
  - destruct (has_dot_split name Hdot) as [base [ext [-> Hext]]].
    rewrite (getExtension_after_dot base ext Hext).
    rewrite has_dot_toLowerCase, toLowerCase_idempotent. split; [exact Hext | reflexivity].
  - rewrite (getExtension_without_dot name Hdot). split; reflexivity.
Qed.

Lemma normalizeFormat_concrete (format fallback : string) :
  normalizeFormat format fallback <> "auto" /\ normalizeFormat format fallback <> "jpg".
Proof.
  unfold normalizeFormat.
  repeat match goal with
         | |- context [if String.eqb ?s ?lit then _ else _] =>
             destruct (String.eqb_spec s lit)
         end; split; try discriminate; assumption.
Qed.

(** X3. Resolving a resolved format again changes nothing, whatever the
    extension: the result of [normalizeFormat] is a fixed point. *)
Theorem normalizeFormat_idempotent (format fallback fallback' : string) :
  normalizeFormat (normalizeFormat format fallback) fallback' =
  normalizeFormat format fallback.
Proof.
  destruct (normalizeFormat_concrete format fallback) as [Hauto Hjpg].
  generalize dependent (normalizeFormat format fallback). intros resolved Hauto Hjpg.
  unfold normalizeFormat.
  destruct (String.eqb_spec resolved "auto"); [contradiction | ].
  destruct (String.eqb_spec resolved "jpg"); [contradiction | reflexivity].
Qed.

End Extensions.

(* ================================================================== *)
(** * Single-pass encoder *)
(* ================================================================== *)

Section Encoder.

Variables (buffer : Buffer) (options : Options.t).

Lemma buildPipeline_no_encoder :
  forallb (fun c => negb (is_encoder c)) (calls (buildPipeline buffer options)) = true.
Proof.
  rewrite buildPipeline_calls.
  destruct (truthy_number (Options.width options) || truthy_number (Options.height options));
    destruct (Options.keepMetadata options);
    destruct (truthy_string (Options.background options));
    destruct (Options.background options); reflexivity.
Qed.

(** X4. The chain that [encodeWithQuality] hands to the codec reads the
    given buffer as a still image, makes the calls of [buildPipeline] and
    ends with exactly one encoder call; that call carries the quality for
    every format but gif, whose encoder takes none. *)
Theorem encodeWithQuality_shape (format : string) (quality : Z) :
  input (encodeWithQuality buffer format quality options) = buffer
  /\ animated (encodeWithQuality buffer format quality options) = false
  /\ exists encoder,
       calls (encodeWithQuality buffer format quality options) =
         (calls (buildPipeline buffer options) ++ [encoder])%list
       /\ is_encoder encoder = true
       /\ forallb (fun c => negb (is_encoder c)) (calls (buildPipeline buffer options)) = true
       /\ (format <> "gif" -> encoder_quality encoder = Some quality)
       /\ (format = "gif" -> encoder = Gif).
Proof.
  assert (Hin : forall c, input (chain (buildPipeline buffer options) c) = buffer).
  { intros c. unfold chain, buildPipeline. cbn [input].
    destruct (truthy_number (Options.width options) || truthy_number (Options.height options));
      destruct (Options.keepMetadata options);
      destruct (Options.background options) as [color | ];
      try destruct (String.eqb color ""); reflexivity. }
  assert (Han : forall c, animated (chain (buildPipeline buffer options) c) = false).
  { intros c. unfold chain, buildPipeline. cbn [animated].
    destruct (truthy_number (Options.width options) || truthy_number (Options.height options));
      destruct (Options.keepMetadata options);
      destruct (Options.background options) as [color | ];
      try destruct (String.eqb color ""); reflexivity. }
  unfold encodeWithQuality.
  repeat match goal with
         | |- context [if String.eqb format ?lit then _ else _] =>
             destruct (String.eqb_spec format lit)
         end;
    (split; [apply Hin | split; [apply Han | ]]);
    eexists; (split; [reflexivity | ]); (split; [reflexivity | ]);
    (split; [apply buildPipeline_no_encoder | ]);
    (split; [intros Hgif; try reflexivity; subst; try discriminate; contradiction
            | intros Hgif; try reflexivity; subst; try discriminate; contradiction]).
Qed.

(** X5. The [lossless] option reaches the codec only for webp and the
    [progressive] option only for jpeg: for every other format the chain
    is the same whatever the flag is. *)
Theorem flags_reach_one_format (format : string) (quality : Z) (flag : bool) :
  (format <> "webp" ->
     encodeWithQuality buffer format quality (with_lossless flag options) =
     encodeWithQuality buffer format quality options)
  /\ (format <> "jpeg" ->
        encodeWithQuality buffer format quality (with_progressive flag options) =
        encodeWithQuality buffer format quality options)
  /\ In (Webp quality 5 flag)
        (calls (encodeWithQuality buffer "webp" quality (with_lossless flag options)))
  /\ In (Jpeg quality (Some true) (Some flag))
        (calls (encodeWithQuality buffer "jpeg" quality (with_progressive flag options))).
Proof.
  split; [ | split; [ | split]].
  - intros Hne. unfold encodeWithQuality.
    change (buildPipeline buffer (with_lossless flag options))
      with (buildPipeline buffer options).
    apply String.eqb_neq in Hne. rewrite Hne. reflexivity.
  - intros Hne. unfold encodeWithQuality.
    change (buildPipeline buffer (with_progressive flag options))
      with (buildPipeline buffer options).
    apply String.eqb_neq in Hne. rewrite Hne. reflexivity.
  - unfold encodeWithQuality, chain. cbn [String.eqb calls Options.lossless with_lossless].
    apply in_or_app. right. left. reflexivity.
  - unfold encodeWithQuality, chain. cbn [String.eqb calls Options.progressive with_progressive].
    apply in_or_app. right. left. reflexivity.
Qed.

(** The gif chain does not depend on the quality. *)
Lemma encodeWithQuality_gif (q q' : Z) :
  encodeWithQuality buffer "gif" q options = encodeWithQuality buffer "gif" q' options.
Proof. reflexivity. Qed.

End Encoder.

(* ================================================================== *)
(** * More on the target-size search *)
(* ================================================================== *)

Section SearchOrder.

Context {E : Externals}.
Variables (buffer : Buffer) (format : string) (targetBytes baseQuality : Z).
Variable options : Options.t.

Local Abbreviation bounds i := (bounds_before buffer format targetBytes baseQuality options i).
Local Abbreviation quality_of i := (quality_at buffer format targetBytes baseQuality options i).
Local Abbreviation encoded_at i := (round_buffer buffer format options i (quality_of i)).
Local Abbreviation call_of i := (call_at buffer format targetBytes baseQuality options i).

(** The recurrence of the bounds keeps them close: the lower bound is at
    most 4 above the upper one. *)
Lemma bounds_before_close (i : nat) :
  (fst (bounds i) = 30 /\ fst (bounds i) - snd (bounds i) <= 3)
  \/ (31 <= fst (bounds i) /\ fst (bounds i) - snd (bounds i) <= 4).
Proof.
  induction i as [ | i IH].
  - cbn [bounds_before fst snd]. lia.
  - cbn [bounds_before]. rewrite midpoint_div.
    destruct (Z.gtb (length (round_buffer buffer format options i
                               ((fst (bounds i) + snd (bounds i) + 1) / 2))) targetBytes);
      cbn [fst snd]; Z.div_mod_to_equations; lia.
Qed.

(** The lower bound never decreases and the upper bound never increases. *)
Lemma bounds_before_step (i : nat) :
  fst (bounds i) <= fst (bounds (S i)) /\ snd (bounds (S i)) <= snd (bounds i).
Proof.
  pose proof (bounds_before_close i) as Hclose.
  cbn [bounds_before]. rewrite midpoint_div.
  destruct (Z.gtb (length (round_buffer buffer format options i
                             ((fst (bounds i) + snd (bounds i) + 1) / 2))) targetBytes);
    cbn [fst snd]; Z.div_mod_to_equations; lia.
Qed.

Lemma bounds_before_mono (i j : nat) :
  (i <= j)%nat ->
  fst (bounds i) <= fst (bounds j) /\ snd (bounds j) <= snd (bounds i).
Proof.
  induction 1 as [ | j Hle IH].
  - lia.
  - pose proof (bounds_before_step j). lia.
Qed.

Lemma quality_near_bounds (i : nat) :
  fst (bounds i) - 2 <= quality_of i <= snd (bounds i) + 2.
Proof.
  pose proof (bounds_before_close i) as Hclose.
  unfold quality_at. rewrite midpoint_div. Z.div_mod_to_equations. lia.
Qed.

(** After a round at quality [q] whose bytes exceed the target no later
    round goes above [q]; after any other round none goes below [q]. *)
Lemma quality_order (i j : nat) :
  (i < j)%nat ->
  (length (encoded_at i) > targetBytes -> quality_of j <= quality_of i)
  /\ (length (encoded_at i) <= targetBytes -> quality_of i <= quality_of j).
Proof.
  intros Hlt.
  assert (Hle : (S i <= j)%nat) by lia.
  pose proof (bounds_before_mono (S i) j Hle) as [Hlow Hhigh].
  pose proof (quality_near_bounds j) as Hnear.
  cbn [bounds_before] in Hlow, Hhigh. fold (quality_of i) in Hlow, Hhigh.
  destruct (Z.gtb_spec (length (encoded_at i)) targetBytes) as [Hgt | Hngt];
    cbn [fst snd] in Hlow, Hhigh; split; intros Hcmp; lia.
Qed.


End SearchOrder.


Section GifSearch.

Context {E : Externals}.
Variables (buffer : Buffer) (targetBytes baseQuality : Z) (options : Options.t).

Local Abbreviation gif_pipeline := (encodeWithQuality buffer "gif" baseQuality options).
Local Abbreviation gif_body := (search_body buffer "gif" targetBytes options).

(** One round of the gif search under a codec that ignores the call index. *)
Lemma gif_body_run (st : SearchState) (log : list EncodeCall) :
  index_independent E ->
  match toBuffer 0 gif_pipeline with
  | Throw e => fst (gif_body st log) = Throw e
  | Ok encoded =>
      exists st' log', gif_body st log = (Ok st', log')
        /\ (bestBuffer st' = Some encoded \/ bestBuffer st' = bestBuffer st)
        /\ (bestDiff st = POSITIVE_INFINITY -> bestBuffer st' = Some encoded)
  end.
Proof.
  intros Hind.
  pose proof (search_body_run buffer "gif" targetBytes options st log) as Hbody.
  cbv zeta in Hbody.
  rewrite (Hind (List.length log) 0%nat) in Hbody.
  rewrite (encodeWithQuality_gif buffer options (midpoint (low st) (high st)) baseQuality)
    in Hbody.
  destruct (toBuffer 0 gif_pipeline) as [encoded | e].
  - destruct Hbody as [st' [Hrun [_ [_ [Hbest _]]]]].
    exists st'. eexists. split; [exact Hrun | ]. split.
    + rewrite Hbest.
      destruct (diff_lt (diff_to_target targetBytes encoded) (bestDiff st)); auto.
    + intros Hinf. rewrite Hbest, Hinf. reflexivity.
  - rewrite Hbody. reflexivity.
Qed.

Lemma gif_loop_best (encoded : Buffer) (n : nat) :
  index_independent E ->
  toBuffer 0 gif_pipeline = Ok encoded ->
  exists st log,
    search_loop (S n) buffer "gif" targetBytes baseQuality options [] = (Ok st, log)
    /\ bestBuffer st = Some encoded.
Proof.
  intros Hind Hanswer. induction n as [ | n IH].
  - unfold search_loop. rewrite for_loop_snoc. unfold bind. cbn [for_loop ret].
    pose proof (gif_body_run (search_init baseQuality) [] Hind) as Hbody.
    rewrite Hanswer in Hbody.
    destruct Hbody as [st' [log' [Hrun [_ Hfirst]]]].
    exists st', log'. split; [exact Hrun | apply Hfirst; reflexivity].
  - destruct IH as [st [log [Hrun Hbest]]].
    unfold search_loop in *. rewrite for_loop_snoc. unfold bind. rewrite Hrun.
    pose proof (gif_body_run st log Hind) as Hbody.
    rewrite Hanswer in Hbody.
    destruct Hbody as [st' [log' [Hrun' [[Hnew | Hkeep] _]]]].
    + exists st', log'. split; [exact Hrun' | exact Hnew].
    + exists st', log'. split; [exact Hrun' | rewrite Hkeep; exact Hbest].
Qed.

(** X8. The gif encoder takes no quality, so for gif every round of the
    search hands the codec the same chain.  Under a codec whose answer
    does not depend on the call index the search for gif returns what
    the single encode at the base quality returns, bytes or exception,
    whatever the target is. *)
Theorem gif_search_is_single_pass :
  index_independent E ->
  fst (encodeToTargetSize buffer "gif" targetBytes baseQuality options []) =
  toBuffer 0 gif_pipeline.
Proof.
  intros Hind.
  destruct (toBuffer 0 gif_pipeline) as [encoded | e] eqn:Hanswer.
  - destruct (gif_loop_best encoded 7 Hind Hanswer) as [st [log [Hrun Hbest]]].
    unfold encodeToTargetSize, bind. rewrite Hrun, Hbest. reflexivity.
  - unfold encodeToTargetSize, search_loop, bind. cbn [for_loop]. unfold bind.
    pose proof (gif_body_run (search_init baseQuality) [] Hind) as Hbody.
    rewrite Hanswer in Hbody.
    destruct (gif_body (search_init baseQuality) []) as [[st | e'] log];
      simpl in Hbody; [discriminate Hbody | ].
    injection Hbody as ->. reflexivity.
Qed.

End GifSearch.

Lemma gif_search_is_single_pass_witness :
  fst (@encodeToTargetSize codec_rejecting_empty (file_bytes good_file) "gif" 1024 75
         plain_options []) =
  @toBuffer codec_rejecting_empty 0
    (encodeWithQuality (file_bytes good_file) "gif" 75 plain_options).
Proof.
  apply (@gif_search_is_single_pass codec_rejecting_empty (file_bytes good_file) 1024 75
           plain_options).
  intros i j p. reflexivity.
Defined.

(* ================================================================== *)
(** * More on the [POST] handler *)
(* ================================================================== *)

Section Jobs.

Context {E : Externals}.
Variable formData : FormData.

Lemma encodeToTargetSize_at_most_8
    (buffer : Buffer) (format : string) (targetBytes baseQuality : Z) (options : Options.t) :
  (List.length (snd (encodeToTargetSize buffer format targetBytes baseQuality options []))
     <= 8)%nat.
Proof.
  destruct (search_loop_safe buffer format targetBytes baseQuality options 8)
    as [Hlen [_ Hrun]].
  unfold encodeToTargetSize, bind.
  destruct (search_loop 8 buffer format targetBytes baseQuality options [])
    as [[st | e] log]; simpl in *; [ | exact Hlen].
  destruct (Hrun st eq_refl) as [_ [_ [_ Hbest]]].
  destruct (bestBuffer st) as [best | ]; [exact Hlen | ].
  exfalso. apply Hbest; [lia | reflexivity].
Qed.

(** X10. When the form gives no usable quality (no field, an empty one, or
    a text that is no finite number), the quality is the one of the
    preset: 45, 60, 75, 88 for tiny, small, balanced, crisp, and 75, the
    one of balanced, when the preset field is missing or empty. *)
Theorem quality_from_preset :
  (forall text, get formData "quality" = Some text -> text = "" \/ ToNumber text = None) ->
  (get formData "preset" = Some "tiny" -> quality formData = 45)
  /\ (get formData "preset" = Some "small" -> quality formData = 60)
  /\ (get formData "preset" = Some "balanced" -> quality formData = 75)
  /\ (get formData "preset" = Some "crisp" -> quality formData = 88)
  /\ (get formData "preset" = None \/ get formData "preset" = Some "" ->
        quality formData = 75).
Proof.
  intros Hquality.
  assert (Hfallback : forall fallback,
             safeNumber (get formData "quality") fallback = fallback).
  { intros fallback. unfold safeNumber.
    destruct (get formData "quality") as [text | ]; [ | reflexivity].
    destruct (Hquality text eq_refl) as [-> | Hnone]; [reflexivity | ].
    rewrite Hnone. destruct (String.eqb text ""); reflexivity. }
  unfold quality. rewrite Hfallback. unfold preset.
  repeat split.
  - intros ->. reflexivity.
  - intros ->. reflexivity.
  - intros ->. reflexivity.
  - intros ->. reflexivity.
  - intros [-> | ->]; reflexivity.
Qed.

Lemma mimeForFormat_image (format : string) :
  In format ["jpeg"; "png"; "webp"; "avif"; "tiff"; "gif"] ->
  mimeForFormat format = Some ("image/" ++ format).
Proof.
  simpl. intros [<- | [<- | [<- | [<- | [<- | [<- | []]]]]]]; reflexivity.
Qed.

Lemma normalizeFormat_of_union (format fallback : string) :
  In format output_formats ->
  In (normalizeFormat format fallback) ["jpeg"; "png"; "webp"; "avif"; "tiff"; "gif"].
Proof.
  unfold output_formats. simpl.
  intros [<- | [<- | [<- | [<- | [<- | [<- | [<- | [<- | []]]]]]]]];
    try (cbn; tauto).
  unfold normalizeFormat. cbn [String.eqb Ascii.eqb Bool.eqb].
  repeat match goal with
         | |- context [String.eqb fallback ?lit] => destruct (String.eqb fallback lit)
         end; tauto.
Qed.

Lemma normalizeFormat_unknown (format fallback : string) :
  ~ In format output_formats -> normalizeFormat format fallback = format.
Proof.
  unfold output_formats. simpl. intros Hnot. unfold normalizeFormat.
  destruct (String.eqb_spec format "auto"); [exfalso; apply Hnot; subst; tauto | ].
  destruct (String.eqb_spec format "jpg"); [exfalso; apply Hnot; subst; tauto | ].
  reflexivity.
Qed.

Lemma job_output (file : File) (output : Output) :
  job formData file = Ok output ->
  name output = outputName formData file
  /\ mime output = mimeForFormat (outputFormat formData file)
  /\ exists log, convert_file formData file [] = (Ok output, log).
Proof.
  unfold job.
  destruct (convert_file formData file []) as [result log] eqn:Hrun.
  simpl. intros ->.
  unfold convert_file, bind in Hrun.
  match type of Hrun with
  | (match ?run with _ => _ end) = _ => destruct run as [[encoded | e] log']
  end; [ | discriminate Hrun].
  unfold ret in Hrun. injection Hrun as <- <-.
  split; [reflexivity | ]. split; [reflexivity | ].
  exists log'. reflexivity.
Qed.

(** X11. When the requested format is one of the [OutputFormat] union, the
    content type of a converted file is [image/] followed by the resolved
    format. *)
Theorem mime_of_resolved_format (file : File) (output : Output) :
  job formData file = Ok output ->
  In (requestedFormat formData) output_formats ->
  mime output = Some ("image/" ++ outputFormat formData file).
Proof.
  intros Hjob Hunion.
  destruct (job_output file output Hjob) as [_ [-> _]].
  apply mimeForFormat_image. unfold outputFormat.
  apply normalizeFormat_of_union. exact Hunion.
Qed.

(** X12. A requested format outside the [OutputFormat] union is not
    rejected: every encode call of the job ends with the plain jpeg
    encoder (quality only), while the output keeps the requested text as
    its extension. *)
Theorem unknown_format_is_plain_jpeg (file : File) :
  ~ In (requestedFormat formData) output_formats ->
  (forall call,
      In call (snd (convert_file formData file [])) ->
      calls (call_pipeline call) =
      (calls (buildPipeline (file_bytes file) (encoderOptions formData file))
       ++ [Jpeg (call_quality call) None None])%list)
  /\ (forall output,
         job formData file = Ok output ->
         name output =
         replace_extension (file_name file) ++ "." ++ requestedFormat formData).
Proof.
  intros Hnot.
  assert (Hformat : outputFormat formData file = requestedFormat formData).
  { unfold outputFormat. apply normalizeFormat_unknown. exact Hnot. }
  assert (Hne : forall lit, In lit output_formats ->
                  String.eqb (requestedFormat formData) lit = false).
  { intros lit Hin. apply String.eqb_neq. intros Heq. apply Hnot. rewrite Heq. exact Hin. }
  split.
  - intros call Hin.
    destruct (convert_file_calls formData file) as [_ Hcalls].
    rewrite Forall_forall in Hcalls. rewrite (Hcalls call Hin), Hformat.
    unfold encodeWithQuality.
    rewrite !Hne by (unfold output_formats; simpl; tauto). reflexivity.
  - intros output Hjob.
    destruct (job_output file output Hjob) as [-> _].
    unfold outputName. rewrite Hformat.
    rewrite Hne by (unfold output_formats; simpl; tauto). reflexivity.
Qed.

End Jobs.

Section Responses.

Context {E : Externals}.
Variable formData : FormData.

(** X13. Under [auto] a file whose extension is, up to case, one of jpg,
    png, webp, avif, tiff, gif keeps its name with the extension in lower
    case; the extension jpeg, in any case, becomes [jpg]. *)
Theorem auto_keeps_the_name (file : File) (output : Output) (base ext : string) :
  job formData file = Ok output ->
  requestedFormat formData = "auto" ->
  file_name file = base ++ "." ++ ext ->
  (In (toLowerCase ext) ["jpg"; "png"; "webp"; "avif"; "tiff"; "gif"] ->
     name output = base ++ "." ++ toLowerCase ext)
  /\ (toLowerCase ext = "jpeg" -> name output = base ++ ".jpg").
Proof.
  intros Hjob Hauto Hname.
  destruct (job_output formData file output Hjob) as [-> _].
  assert (Hgoal : In (toLowerCase ext) known_extensions ->
                  outputName formData file =
                  base ++ "." ++ (if String.eqb (toLowerCase ext) "jpeg" then "jpg"
                                  else toLowerCase ext)).
  { intros Hin.
    assert (Hall : all_not_slash_dot ext = true).
    { rewrite <- all_not_slash_dot_toLowerCase.
      unfold known_extensions in Hin. simpl in Hin.
      destruct Hin as [<- | [<- | [<- | [<- | [<- | [<- | [<- | []]]]]]]]; reflexivity. }
    assert (Hne : ext <> "").
    { intros ->. unfold known_extensions in Hin. simpl in Hin.
      destruct Hin as [H | [H | [H | [H | [H | [H | [H | []]]]]]]]; discriminate H. }
    assert (Hext : Convert.getExtension (file_name file) = toLowerCase ext).
    { rewrite Hname. apply getExtension_after_dot.
      apply all_not_slash_dot_has_dot. exact Hall. }
    unfold outputName, outputFormat. rewrite Hauto, Hext, Hname.
    rewrite (replace_extension_removes base ext Hne Hall).
    unfold known_extensions in Hin. simpl in Hin.
    destruct Hin as [<- | [<- | [<- | [<- | [<- | [<- | [<- | []]]]]]]]; reflexivity. }
  split.
  - intros Hin. rewrite Hgoal.
    + simpl in Hin.
      destruct Hin as [<- | [<- | [<- | [<- | [<- | [<- | []]]]]]]; reflexivity.
    + unfold known_extensions. simpl. simpl in Hin. tauto.
  - intros Hjpeg. rewrite Hgoal.
    + rewrite Hjpeg. reflexivity.
    + rewrite Hjpeg. unfold known_extensions. simpl. tauto.
Qed.

Lemma normalizeFormat_fixed (format fallback fallback' : string) :
  format <> "auto" -> normalizeFormat format fallback = normalizeFormat format fallback'.
Proof.
  intros Hne. unfold normalizeFormat.
  apply String.eqb_neq in Hne. rewrite Hne. reflexivity.
Qed.

(** X14. With a requested format other than [auto] the output name does
    not keep the input extension: two files with the same base and
    different non-empty extensions without ['/'] get the same output
    name. *)
Theorem same_base_same_output_name (file file' : File) (base ext ext' : string) :
  requestedFormat formData <> "auto" ->
  file_name file = base ++ "." ++ ext ->
  file_name file' = base ++ "." ++ ext' ->
  ext <> "" -> all_not_slash_dot ext = true ->
  ext' <> "" -> all_not_slash_dot ext' = true ->
  outputName formData file = outputName formData file'.
Proof.
  intros Hfixed Hname Hname' Hne Hall Hne' Hall'.
  unfold outputName, outputFormat. rewrite Hname, Hname'.
  rewrite !replace_extension_removes by assumption.
  rewrite (normalizeFormat_fixed _ (Convert.getExtension (base ++ "." ++ ext))
             (Convert.getExtension (base ++ "." ++ ext')) Hfixed).
  reflexivity.
Qed.

End Responses.

(* ================================================================== *)
(** * The helpers of [@/lib/utils] and the estimate route *)
(* ================================================================== *)

Section UtilsAgree.

Context {E : Externals}.

Lemma as_integer_inject (z : Z) : as_integer (inject_Z z) = z.
Proof. apply Qfloor_Z. Qed.

Lemma safeNumber_text (v : option string) (fallback : Z) :
  LibUtils.safeNumber (entry_value (option_map EntryString v)) (inject_Z fallback) =
  inject_Z (Convert.safeNumber v fallback).
Proof.
  unfold LibUtils.safeNumber, Convert.safeNumber.
  destruct v as [s | ]; simpl; [ | reflexivity].
  destruct (String.eqb s ""); [reflexivity | ].
  destruct (ToNumber s); reflexivity.
Qed.

Lemma toBoolean_text (v : option string) :
  Utils.toBoolean (entry_value (option_map EntryString v)) =
  Convert.toBoolean (option_map EntryString v).
Proof.
  destruct v as [s | ]; unfold Utils.toBoolean; simpl;
    rewrite ?orb_false_r; reflexivity.
Qed.

(** X17. On a text entry or [null] the [safeNumber] of [@/lib/utils] and
    the copy local to the conversion route give the same number.  The
    helper of the library also gives the fallback for a [File], for the
    number zero, for [NaN] and for the two infinities, and gives every
    other finite number back as it is. *)
Theorem safeNumber_copies_agree :
  (forall (v : option string) (fallback : Z),
      LibUtils.safeNumber (entry_value (option_map EntryString v)) (inject_Z fallback) =
      inject_Z (Convert.safeNumber v fallback))
  /\ (forall f fallback, LibUtils.safeNumber (VFile f) fallback = fallback)
  /\ (forall fallback,
         LibUtils.safeNumber (VNumber (Finite 0)) fallback = fallback
         /\ LibUtils.safeNumber (VNumber NaN) fallback = fallback
         /\ LibUtils.safeNumber (VNumber PositiveInfinity) fallback = fallback
         /\ LibUtils.safeNumber (VNumber NegativeInfinity) fallback = fallback)
  /\ (forall q fallback,
         ~ q == 0 -> LibUtils.safeNumber (VNumber (Finite q)) fallback = q).
Proof.
  split; [exact safeNumber_text | ].
  split; [reflexivity | ].
  split; [intros fallback; repeat split | ].
  intros q fallback Hq. unfold LibUtils.safeNumber.
  destruct (Qeq_bool q 0) eqn:Hz; [ | reflexivity].
  apply Qeq_bool_iff in Hz. contradiction.
Qed.

Variable formData : FormData.

(** The estimate route reads from a form what the conversion route reads. *)
Lemma estimate_reads_alike :
  Estimate.quality formData = Convert.quality formData
  /\ Estimate.targetSizeKB formData = Convert.targetSizeKB formData
  /\ (forall file, Estimate.outputFormat formData file = Convert.outputFormat formData file)
  /\ (forall file, Estimate.encoderOptions formData file = Convert.encoderOptions formData file)
  /\ (forall file, Estimate.outputName formData file = Convert.outputName formData file).
Proof.
  assert (Hnum : forall key fallback,
             as_integer (LibUtils.safeNumber (Estimate.entry formData key) (inject_Z fallback)) =
             Convert.safeNumber (get formData key) fallback).
  { intros key fallback. unfold Estimate.entry.
    rewrite safeNumber_text. apply as_integer_inject. }
  assert (Hflag : forall key,
             Utils.toBoolean (Estimate.entry formData key) =
             Convert.toBoolean (option_map EntryString (get formData key))).
  { intros key. apply toBoolean_text. }
  assert (Hformat : forall file,
             Estimate.outputFormat formData file = Convert.outputFormat formData file).
  { intros file. reflexivity. }
  split.
  { unfold Estimate.quality, Convert.quality. apply Hnum. }
  split.
  { unfold Estimate.targetSizeKB, Convert.targetSizeKB. apply (Hnum "targetSizeKB" 0). }
  split; [exact Hformat | ].
  split.
  { intros file. unfold Estimate.encoderOptions, Convert.encoderOptions.
    unfold Estimate.resizeWidth, Estimate.resizeHeight, Convert.resizeWidth,
      Convert.resizeHeight.
    assert (Hzero : forall key,
               as_integer (LibUtils.safeNumber (Estimate.entry formData key) 0) =
               Convert.safeNumber (get formData key) 0)
      by (intros key; exact (Hnum key 0)).
    rewrite !Hzero.
    unfold Estimate.keepMetadata, Estimate.lossless, Estimate.progressive,
      Estimate.shouldFlatten, Estimate.flatten.
    rewrite !Hflag, Hformat. reflexivity. }
  { intros file. reflexivity. }
Qed.

(** The job of the estimate route makes the encode calls of the job of the
    conversion route and reports the name and the size of its output. *)
Lemma estimate_job_of_conversion (file : File) :
  Estimate.job formData file =
  match Convert.job formData file with
  | Ok output =>
      Ok {| Estimate.name := Convert.name output;
            Estimate.inputName := file_name file;
            Estimate.inputSize := length (file_bytes file);
            Estimate.outputSize := length (buffer output) |}
  | Throw e => Throw e
  end.
Proof.
  destruct estimate_reads_alike as [Hq [Ht [Hf [Ho Hn]]]].
  unfold Estimate.job, Convert.job, Estimate.estimate_file, Convert.convert_file, bind.
  rewrite Hq, Ht, Hf, Ho, Hn.
  match goal with
  | |- context [match ?run with _ => _ end] =>
      match run with
      | (if _ then _ else _) _ => destruct run as [[encoded | e] log]
      end
  end; reflexivity.
Qed.

(** X18. When the estimate route answers with entries, there is one entry
    per file, in the order of the files; each names its file and reports
    the output name and the byte length that the conversion route
    produces for that file from the same form under the same codec. *)
Theorem estimate_matches_conversion (entries : list Estimate.Entry) :
  Estimate.POST formData = Estimate.JsonFiles entries ->
  Forall2 (fun file entry =>
             Estimate.inputName entry = file_name file
             /\ Estimate.inputSize entry = length (file_bytes file)
             /\ exists output,
                  Convert.job formData file = Ok output
                  /\ Estimate.name entry = Convert.name output
                  /\ Estimate.outputSize entry = length (buffer output))
    (files formData) entries.
Proof.
  unfold Estimate.POST, Estimate.files, Convert.files.
  destruct (getAll_files formData) as [ | f rest] eqn:Hfiles; [discriminate | ].
  rewrite <- Hfiles. clear Hfiles f rest.
  destruct (Promise_all (map (Estimate.job formData) (getAll_files formData)))
    as [outs | e] eqn:Hrun; [ | discriminate].
  intros Hpost. injection Hpost as <-.
  revert outs Hrun.
  induction (getAll_files formData) as [ | file l IH]; intros outs Hrun.
  - simpl in Hrun. injection Hrun as <-. constructor.
  - simpl in Hrun.
    destruct (Estimate.job formData file) as [entry | e] eqn:Hjob; [ | discriminate Hrun].
    destruct (Promise_all (map (Estimate.job formData) l)) as [outs' | e];
      [ | discriminate Hrun].
    injection Hrun as <-.
    constructor; [ | apply IH; reflexivity].
    rewrite estimate_job_of_conversion in Hjob.
    destruct (Convert.job formData file) as [output | e]; [ | discriminate Hjob].
    injection Hjob as <-. cbn.
    split; [reflexivity | ]. split; [reflexivity | ].
    exists output. repeat split.
Qed.

End UtilsAgree.

(* ================================================================== *)
(** * From the page to the handler *)
(* ================================================================== *)

Section PageForm.

Context {E : Externals}.

Lemma fold_append_files (l : list File) (formData : FormData) :
  getAll_files (fold_left (fun fd file => Page.append_file file fd) l formData) =
    (getAll_files formData ++ l)%list
  /\ get (fold_left (fun fd file => Page.append_file file fd) l formData) = get formData.
Proof.
  revert formData. induction l as [ | file l IH]; intros formData.
  - simpl. rewrite app_nil_r. split; reflexivity.
  - simpl. destruct (IH (Page.append_file file formData)) as [Hfiles Hget].
    rewrite Hfiles, Hget. simpl. rewrite <- app_assoc. split; reflexivity.
Qed.

Lemma String_number_not_empty (n : Z) : Page.String_number n <> "".
Proof.
  unfold Page.String_number.
  destruct (Z.to_int n) as [d | d]; simpl.
  - destruct d; discriminate.
  - discriminate.
Qed.

Lemma toBoolean_String_boolean (flag : bool) :
  Convert.toBoolean (Some (EntryString (Page.String_boolean flag))) = flag.
Proof. destruct flag; reflexivity. Qed.

Ltac read_form st :=
  unfold Page.submitted_form, Page.set_if_given;
  destruct (String.eqb (Page.targetSizeKB st) "");
  destruct (String.eqb (Page.width st) "");
  destruct (String.eqb (Page.height st) "");
  cbn [get Page.set getAll_files String.eqb Ascii.eqb Bool.eqb option_map].

(** X19. The form that the page submits carries the settings to the
    handler unchanged: the handler reads the files in their order, the
    four flags as the page holds them ([String(flag)] read back by
    [toBoolean]), a non-empty format, fit mode and background as they
    are, no target size when the field of the page is empty, and, when
    [Number] reads the printed quality back, the quality of the page
    whatever the preset is. *)
Theorem form_carries_settings (l : list File) (st : Page.Settings) :
  Convert.files (Page.submitted_form l st) = l
  /\ Convert.keepMetadata (Page.submitted_form l st) = Page.keepMetadata st
  /\ Convert.flatten (Page.submitted_form l st) = Page.flattenBackground st
  /\ Convert.lossless (Page.submitted_form l st) = Page.lossless st
  /\ Convert.progressive (Page.submitted_form l st) = Page.progressive st
  /\ (Page.format st <> "" ->
        Convert.requestedFormat (Page.submitted_form l st) = Page.format st)
  /\ (Page.fit st <> "" -> Convert.fit (Page.submitted_form l st) = Page.fit st)
  /\ (Page.background st <> "" ->
        Convert.background (Page.submitted_form l st) = Page.background st)
  /\ (Page.targetSizeKB st = "" -> Convert.targetSizeKB (Page.submitted_form l st) = 0)
  /\ (ToNumber (Page.String_number (Page.quality st)) = Some (Page.quality st) ->
        Convert.quality (Page.submitted_form l st) = Page.quality st).
Proof.
  destruct (fold_append_files l Page.new_FormData) as [Hfiles Hget].
  split.
  { unfold Convert.files. read_form st; rewrite Hfiles; reflexivity. }
  split.
  { unfold Convert.keepMetadata. read_form st; apply toBoolean_String_boolean. }
  split.
  { unfold Convert.flatten. read_form st; apply toBoolean_String_boolean. }
  split.
  { unfold Convert.lossless. read_form st; apply toBoolean_String_boolean. }
  split.
  { unfold Convert.progressive. read_form st; apply toBoolean_String_boolean. }
  split.
  { intros Hne. apply String.eqb_neq in Hne.
    unfold Convert.requestedFormat. read_form st; unfold or_string; rewrite Hne;
      reflexivity. }
  split.
  { intros Hne. apply String.eqb_neq in Hne.
    unfold Convert.fit. read_form st; unfold or_string; rewrite Hne; reflexivity. }
  split.
  { intros Hne. apply String.eqb_neq in Hne.
    unfold Convert.background. read_form st; unfold or_string; rewrite Hne;
      reflexivity. }
  split.
  { intros Hempty. unfold Convert.targetSizeKB.
    unfold Page.submitted_form, Page.set_if_given. rewrite Hempty.
    destruct (String.eqb (Page.width st) "");
      destruct (String.eqb (Page.height st) "");
      cbn [get Page.set getAll_files String.eqb Ascii.eqb Bool.eqb];
      rewrite Hget; reflexivity. }
  { intros Hread.
    pose proof (String_number_not_empty (Page.quality st)) as Hne.
    apply String.eqb_neq in Hne.
    unfold Convert.quality. read_form st; unfold safeNumber; rewrite Hne, Hread;
      reflexivity. }
Qed.

End PageForm.

(* ================================================================== *)
(** * The theme toggle *)
(* ================================================================== *)

Section Theme.

(** X20. Whatever text the theme holds, one toggle makes it [light] or
    [dark]; from a theme that is one of the two a second toggle leads
    back, and in every case a third toggle gives what the first gave.
    The theme that the effect stores is the theme that the component
    starts with when the page is loaded again. *)
Theorem toggle_and_reload (theme : string) (w : ThemeToggle.Window) :
  (ThemeToggle.toggle theme = "light" \/ ThemeToggle.toggle theme = "dark")
  /\ (theme = "light" \/ theme = "dark" ->
        ThemeToggle.toggle (ThemeToggle.toggle theme) = theme)
  /\ ThemeToggle.toggle (ThemeToggle.toggle (ThemeToggle.toggle theme)) =
     ThemeToggle.toggle theme
  /\ ThemeToggle.initialTheme (Some (ThemeToggle.store theme w)) = theme.
Proof.
  unfold ThemeToggle.toggle.
  destruct (String.eqb_spec theme "light") as [-> | Hne].
  - repeat split; auto.
  - repeat split; auto.
    intros [Hl | ->]; [contradiction | reflexivity].
Qed.

End Theme.

(* ================================================================== *)
(** * The options of a job in its chains *)
(* ================================================================== *)

Section JobChains.

Context {E : Externals}.
Variable formData : FormData.

Lemma encodeWithQuality_calls
    (buffer : Buffer) (format : string) (quality : Z) (options : Options.t) :
  exists encoder,
    calls (encodeWithQuality buffer format quality options) =
      (calls (buildPipeline buffer options) ++ [encoder])%list
    /\ is_encoder encoder = true.
Proof.
  unfold encodeWithQuality.
  repeat match goal with
         | |- context [if String.eqb format ?lit then _ else _] =>
             destruct (String.eqb format lit)
         end; eexists; split; reflexivity.
Qed.

Lemma or_undefined_number (n : Z) :
  or_undefined (Some n) = if Z.eqb n 0 then None else Some n.
Proof.
  unfold or_undefined, truthy_number. destruct (Z.eqb n 0); reflexivity.
Qed.

Lemma fit_not_empty : or_string (Some (fit formData)) "inside" = fit formData.
Proof.
  pose proof (or_string_truthy (get formData "fit") "inside") as Htruthy.
  unfold truthy_string in Htruthy. fold (fit formData) in Htruthy.
  unfold or_string at 1.
  destruct (String.eqb (fit formData) ""); [ | reflexivity].
  discriminate Htruthy. discriminate.
Qed.

(** X21. In every encode call of the job of a file the chain asks to keep
    the metadata exactly when the [keepMetadata] flag of the form is
    true, and holds a resize call exactly when the width or the height
    of the form is not zero; the resize call carries the non-zero ones of
    the two, the fit mode of the form (['inside'] when the form names
    none) and forbids enlargement. *)
Theorem job_chain_options (file : File) (call : EncodeCall) :
  In call (snd (convert_file formData file [])) ->
  existsb is_withMetadata (calls (call_pipeline call)) = keepMetadata formData
  /\ (existsb is_resize (calls (call_pipeline call)) = true <->
      resizeWidth formData <> 0 \/ resizeHeight formData <> 0)
  /\ (forall w h f e,
         In (Resize w h f e) (calls (call_pipeline call)) ->
         w = (if Z.eqb (resizeWidth formData) 0 then None else Some (resizeWidth formData))
         /\ h = (if Z.eqb (resizeHeight formData) 0 then None
                 else Some (resizeHeight formData))
         /\ f = fit formData
         /\ e = true).
Proof.
  intros Hin.
  destruct (convert_file_calls formData file) as [_ Hcalls].
  rewrite Forall_forall in Hcalls. rewrite (Hcalls call Hin).
  destruct (encodeWithQuality_calls (file_bytes file) (outputFormat formData file)
              (call_quality call) (encoderOptions formData file))
    as [encoder [-> Henc]].
  rewrite buildPipeline_calls.
  assert (Hflat : exists flat,
             (if truthy_string (Options.background (encoderOptions formData file))
              then match Options.background (encoderOptions formData file) with
                   | Some color => [Flatten color]
                   | None => []
                   end
              else []) = flat
             /\ (flat = [] \/ exists color, flat = [Flatten color])).
  { destruct (truthy_string (Options.background (encoderOptions formData file)));
      [ | eexists; split; [reflexivity | left; reflexivity]].
    destruct (Options.background (encoderOptions formData file)) as [color | ];
      eexists; (split; [reflexivity | ]); [right; exists color | left]; reflexivity. }
  destruct Hflat as [flat [-> Hshape]].
  change (Options.width (encoderOptions formData file))
    with (or_undefined (Some (resizeWidth formData))).
  change (Options.height (encoderOptions formData file))
    with (or_undefined (Some (resizeHeight formData))).
  change (Options.fit (encoderOptions formData file)) with (Some (fit formData)).
  change (Options.keepMetadata (encoderOptions formData file)) with (keepMetadata formData).
  rewrite !or_undefined_number, fit_not_empty.
  assert (Htruthy : forall n,
             truthy_number (if Z.eqb n 0 then None else Some n) = negb (Z.eqb n 0)).
  { intros n. destruct (Z.eqb n 0) eqn:Hn; simpl; [reflexivity | rewrite Hn; reflexivity]. }
  rewrite !Htruthy.
  destruct Hshape as [-> | [color ->]];
    destruct (Z.eqb_spec (resizeWidth formData) 0) as [Hw | Hw];
    destruct (Z.eqb_spec (resizeHeight formData) 0) as [Hh | Hh];
    destruct (keepMetadata formData);
    destruct encoder; try discriminate Henc; cbn;
    (split; [reflexivity | ]);
    (split; [split; [intros Hres; try discriminate Hres; tauto
                    | intros [Hc | Hc]; try reflexivity; contradiction] | ]);
    intros w h f e Hres;
    repeat (destruct Hres as [Hres | Hres]; try discriminate Hres; try contradiction);
    injection Hres as <- <- <- <-; repeat split.
  all: rewrite or_undefined_number;
    match goal with
    | |- context [Z.eqb ?n 0] => destruct (Z.eqb_spec n 0)
    end; [contradiction | reflexivity].
Qed.

End JobChains.

(* ================================================================== *)
(** * The statements above at sample inputs *)
(* ================================================================== *)

Lemma quality_from_preset_witness :
  @quality codec_rejecting_empty (form_with "preset" "tiny" [good_file]) = 45.
Proof.
  destruct (@quality_from_preset codec_rejecting_empty
              (form_with "preset" "tiny" [good_file])) as [Htiny _].
  - intros text Hget. discriminate Hget.
  - apply Htiny. reflexivity.
Defined.

Lemma mime_of_resolved_format_witness :
  mime {| name := "photo.png"; buffer := file_bytes good_file; mime := Some "image/png" |} =
  Some ("image/" ++ @outputFormat (form_of_files [good_file]) good_file).
Proof.
  apply (@mime_of_resolved_format codec_rejecting_empty (form_of_files [good_file])
           good_file).
  - reflexivity.
  - unfold output_formats. simpl. tauto.
Defined.

Lemma unknown_format_is_plain_jpeg_witness :
  (forall call,
      In call (snd (@convert_file codec_rejecting_empty
                      (form_with "format" "bmp" [good_file]) good_file [])) ->
      calls (call_pipeline call) =
      (calls (buildPipeline (file_bytes good_file)
                (@encoderOptions codec_rejecting_empty
                   (form_with "format" "bmp" [good_file]) good_file))
       ++ [Jpeg (call_quality call) None None])%list)
  /\ (forall output,
         @job codec_rejecting_empty (form_with "format" "bmp" [good_file]) good_file =
           Ok output ->
         name output =
         replace_extension (file_name good_file) ++ "." ++
           requestedFormat (form_with "format" "bmp" [good_file])).
Proof.
  apply (@unknown_format_is_plain_jpeg codec_rejecting_empty
           (form_with "format" "bmp" [good_file]) good_file).
  unfold output_formats. simpl.
  intros [H | [H | [H | [H | [H | [H | [H | [H | []]]]]]]]]; discriminate H.
Defined.

Lemma auto_keeps_the_name_witness :
  name {| name := "Holiday.png"; buffer := file_bytes upper_case_file;
          mime := Some "image/png" |} =
  "Holiday" ++ "." ++ toLowerCase "PNG".
Proof.
  destruct (@auto_keeps_the_name codec_rejecting_empty (form_of_files [upper_case_file])
              upper_case_file
              {| name := "Holiday.png"; buffer := file_bytes upper_case_file;
                 mime := Some "image/png" |}
              "Holiday" "PNG" eq_refl eq_refl eq_refl) as [Hkeeps _].
  apply Hkeeps. simpl. tauto.
Defined.

Lemma same_base_same_output_name_witness :
  @outputName (form_with "format" "webp" [good_file; other_extension_file]) good_file =
  @outputName (form_with "format" "webp" [good_file; other_extension_file])
    other_extension_file.
Proof.
  apply (@same_base_same_output_name
           (form_with "format" "webp" [good_file; other_extension_file])
           good_file other_extension_file "photo" "png" "gif").
  - discriminate.
  - reflexivity.
  - reflexivity.
  - discriminate.
  - reflexivity.
  - discriminate.
  - reflexivity.
Defined.

Lemma estimate_matches_conversion_witness :
  Forall2 (fun file entry =>
             Estimate.inputName entry = file_name file
             /\ Estimate.inputSize entry = length (file_bytes file)
             /\ exists output,
                  @job codec_rejecting_empty (form_of_files [good_file]) file = Ok output
                  /\ Estimate.name entry = name output
                  /\ Estimate.outputSize entry = length (buffer output))
    (files (form_of_files [good_file]))
    [{| Estimate.name := "photo.png"; Estimate.inputName := "photo.png";
        Estimate.inputSize := 4; Estimate.outputSize := 4 |}].
Proof.
  apply (@estimate_matches_conversion codec_rejecting_empty (form_of_files [good_file])).
  reflexivity.
Defined.

Lemma job_chain_options_witness :
  Forall (fun call =>
            existsb is_withMetadata (calls (call_pipeline call)) = false
            /\ existsb is_resize (calls (call_pipeline call)) = false)
    (snd (@convert_file codec_rejecting_empty flatten_jpg_form good_file [])).
Proof.
  apply Forall_forall. intros call Hin.
  destruct (@job_chain_options codec_rejecting_empty flatten_jpg_form good_file call Hin)
    as [Hmeta [Hresize _]].
  split; [exact Hmeta | ].
  destruct (existsb is_resize (calls (call_pipeline call))); [ | reflexivity].
  destruct (proj1 Hresize eq_refl) as [Hw | Hh]; [contradiction Hw | contradiction Hh];
    reflexivity.
Defined.

(* ================================================================== *)
(** * The search for every byte target *)
(* ================================================================== *)

Section EveryTarget.

Context {E : Externals}.
Variables (buffer : Buffer) (format : string) (baseQuality : Z).
Variable options : Options.t.

Local Abbreviation pipeline_at q := (encodeWithQuality buffer format q options).
Local Abbreviation in_range q := (29 <= q <= Z.max baseQuality 40 + 2).
Local Abbreviation any_loop n target :=
  (AnyTarget.search_loop n buffer format target baseQuality options).
Local Abbreviation any_search target :=
  (AnyTarget.encodeToTargetSize buffer format target baseQuality options).

(** On an integer target the search is the one of the [Convert] module. *)
Lemma finite_loop (n : nat) (t : Z) :
  any_loop n (Bytes t) = search_loop n buffer format t baseQuality options.
Proof. reflexivity. Qed.

Lemma finite_search (t : Z) :
  any_search (Bytes t) = Convert.encodeToTargetSize buffer format t baseQuality options.
Proof. reflexivity. Qed.

(** One round under the target [Infinity]: nothing is recorded and the
    lower bound moves up. *)
Lemma infinite_body_run (st : SearchState) (log : list EncodeCall) :
  AnyTarget.search_body buffer format POSITIVE_INFINITY options st log =
  match toBuffer (List.length log) (pipeline_at (midpoint (low st) (high st))) with
  | Ok encoded =>
      (Ok {| low := midpoint (low st) (high st) + 2; high := high st;
             bestBuffer := bestBuffer st; bestDiff := bestDiff st |},
       (log ++ [{| call_quality := midpoint (low st) (high st);
                   call_pipeline := pipeline_at (midpoint (low st) (high st)) |}])%list)
  | Throw e =>
      (Throw e,
       (log ++ [{| call_quality := midpoint (low st) (high st);
                   call_pipeline := pipeline_at (midpoint (low st) (high st)) |}])%list)
  end.
Proof.
  unfold AnyTarget.search_body, bind, await_toBuffer.
  destruct (toBuffer (List.length log) (pipeline_at (midpoint (low st) (high st))));
    reflexivity.
Qed.

(** Under the target [Infinity], whatever the codec does: the qualities of
    the rounds are in range, and a loop that is still running has made
    [n] calls, keeps its bounds invariant and holds no best buffer. *)
Lemma infinite_loop_safe (n : nat) :
  (List.length (snd (any_loop n POSITIVE_INFINITY [])) <= n)%nat
  /\ Forall (fun q => in_range q) (qualities (snd (any_loop n POSITIVE_INFINITY [])))
  /\ (forall st, fst (any_loop n POSITIVE_INFINITY []) = Ok st ->
        List.length (snd (any_loop n POSITIVE_INFINITY [])) = n
        /\ bounds_invariant baseQuality st
        /\ bestBuffer st = None).
Proof.
  induction n as [ | n IH].
  - simpl. split; [lia | ]. split; [constructor | ].
    intros st Hst. injection Hst as <-.
    split; [reflexivity | ]. split; [apply bounds_invariant_init | reflexivity].
  - unfold AnyTarget.search_loop in *. rewrite for_loop_snoc. unfold bind.
    destruct (for_loop n (AnyTarget.search_body buffer format POSITIVE_INFINITY options)
                (search_init baseQuality) []) as [[st | e] log];
      simpl in IH; destruct IH as [Hlen [Hrange Hrun]].
    + destruct (Hrun st eq_refl) as [Hn [Hinv Hnone]].
      pose proof (midpoint_in_range baseQuality st Hinv) as Hq.
      rewrite infinite_body_run.
      destruct (toBuffer (List.length log) (pipeline_at (midpoint (low st) (high st))))
        as [encoded | e]; simpl; rewrite length_app; simpl.
      * split; [lia | ]. split.
        { unfold qualities. rewrite map_app. apply Forall_app. split; [exact Hrange | ].
          constructor; [exact Hq | constructor]. }
        intros st' Hst. injection Hst as <-.
        split; [lia | ]. split; [ | exact Hnone].
        apply (bounds_invariant_step baseQuality st _ false Hinv); reflexivity.
      * split; [lia | ]. split; [ | intros st' Hst; discriminate Hst].
        unfold qualities. rewrite map_app. apply Forall_app. split; [exact Hrange | ].
        constructor; [exact Hq | constructor].
    + simpl. split; [lia | ]. split; [exact Hrange | ].
      intros st Hst. discriminate Hst.
Qed.

(** Under the target [Infinity] and a codec that answers every call, the
    loop completes its eight rounds without a best buffer. *)
Lemma infinite_loop_completes (n : nat) :
  codec_succeeds E ->
  exists st log,
    any_loop n POSITIVE_INFINITY [] = (Ok st, log)
    /\ List.length log = n
    /\ bestBuffer st = None.
Proof.
  intros Hok. induction n as [ | n [st [log [Hrun [Hlen Hnone]]]]].
  - exists (search_init baseQuality), []. repeat split.
  - unfold AnyTarget.search_loop in *. rewrite for_loop_snoc. unfold bind.
    rewrite Hrun, infinite_body_run.
    destruct (Hok (List.length log) (pipeline_at (midpoint (low st) (high st))))
      as [encoded ->].
    eexists. eexists. split; [reflexivity | ].
    split; [rewrite length_app; simpl; lia | exact Hnone].
Qed.

(** C2, as amended.  For a finite target the search makes at most eight
    encode calls, whatever the codec does.  When moreover the target is
    at most 2^53, where the differences of the program are exact, and
    the codec answers every call, the buffer returned is the one of some
    round [k]; its distance to the target is no larger than the distance
    of any round, and it is strictly smaller than the distance of every
    earlier round: among rounds at the same minimal distance the
    earliest one is returned. *)
Theorem best_candidate_returned (t : Z) :
  (List.length (snd (any_search (Bytes t) [])) <= 8)%nat
  /\ (0 < t <= 2 ^ 53 ->
      codec_succeeds E ->
      exists (best : Buffer) (log : list EncodeCall) (k : nat),
        any_search (Bytes t) [] = (Ok best, log)
        /\ (k < 8)%nat
        /\ iteration_buffer log k = Some best
        /\ forall j, (j < 8)%nat ->
             exists encoded,
               iteration_buffer log j = Some encoded
               /\ diff_to_target t best <= diff_to_target t encoded
               /\ ((j < k)%nat -> diff_to_target t best < diff_to_target t encoded)).
Proof.
  rewrite finite_search. split.
  - apply encodeToTargetSize_at_most_8.
  - intros _ Hok.
    destruct (encodeToTargetSize_run buffer format t baseQuality options Hok)
      as [k [Hk [Hrun Hmin]]].
    eexists. eexists. exists k.
    split; [exact Hrun | ]. split; [exact Hk | ].
    split; [exact (iteration_buffer_trace buffer format t baseQuality options 8 k Hok Hk) | ].
    intros j Hj. eexists.
    split; [exact (iteration_buffer_trace buffer format t baseQuality options 8 j Hok Hj) | ].
    exact (Hmin j Hj).
Qed.

(** C3, as amended.  When the codec answers every call the search returns
    a buffer, whatever the target is.  For a finite target the first
    round already records its buffer as the best one, so after the loop
    the best buffer is present and is what the search returns, with the
    log of the loop and no further call.  For the target [Infinity] no
    round records a buffer, and the search makes a ninth call, at the
    base quality, and returns its bytes. *)
Theorem search_never_fails (targetBytes : Diff) :
  codec_succeeds E ->
  (exists result log, any_search targetBytes [] = (Ok result, log))
  /\ (forall t, targetBytes = Bytes t ->
        (exists st1 log1 first,
            any_loop 1 targetBytes [] = (Ok st1, log1)
            /\ iteration_buffer log1 0 = Some first
            /\ bestBuffer st1 = Some first)
        /\ (exists st log best,
              any_loop 8 targetBytes [] = (Ok st, log)
              /\ List.length log = 8%nat
              /\ bestBuffer st = Some best
              /\ any_search targetBytes [] = (Ok best, log)))
  /\ (targetBytes = POSITIVE_INFINITY ->
        exists st log fallback,
          any_loop 8 targetBytes [] = (Ok st, log)
          /\ List.length log = 8%nat
          /\ bestBuffer st = None
          /\ toBuffer 8 (pipeline_at baseQuality) = Ok fallback
          /\ any_search targetBytes [] =
             (Ok fallback,
              (log ++ [{| call_quality := baseQuality;
                          call_pipeline := pipeline_at baseQuality |}])%list)).
Proof.
  intros Hok.
  assert (Hfinite : forall t,
             (exists st1 log1 first,
                 any_loop 1 (Bytes t) [] = (Ok st1, log1)
                 /\ iteration_buffer log1 0 = Some first
                 /\ bestBuffer st1 = Some first)
             /\ (exists st log best,
                   any_loop 8 (Bytes t) [] = (Ok st, log)
                   /\ List.length log = 8%nat
                   /\ bestBuffer st = Some best
                   /\ any_search (Bytes t) [] = (Ok best, log))).
  { intros t. rewrite finite_search, !finite_loop. split.
    - destruct (search_loop_trace buffer format t baseQuality options 1 Hok)
        as [st [Hrun [_ [_ Hbest]]]].
      destruct Hbest as [[Hzero _] | [k [Hk [Hsome _]]]]; [discriminate Hzero | ].
      assert (k = 0%nat) as -> by lia.
      eexists. eexists. eexists.
      split; [exact Hrun | ].
      split; [ | exact Hsome].
      apply (iteration_buffer_trace buffer format t baseQuality options 1 0 Hok). lia.
    - destruct (search_loop_trace buffer format t baseQuality options 8 Hok)
        as [st [Hrun [_ [_ Hbest]]]].
      destruct Hbest as [[Hzero _] | [k [Hk [Hsome _]]]]; [discriminate Hzero | ].
      eexists. eexists. eexists.
      split; [exact Hrun | ]. split; [rewrite length_map, length_seq; reflexivity | ].
      split; [exact Hsome | ].
      unfold Convert.encodeToTargetSize, bind. rewrite Hrun, Hsome. reflexivity. }
  assert (Hinfinite :
            exists st log fallback,
              any_loop 8 POSITIVE_INFINITY [] = (Ok st, log)
              /\ List.length log = 8%nat
              /\ bestBuffer st = None
              /\ toBuffer 8 (pipeline_at baseQuality) = Ok fallback
              /\ any_search POSITIVE_INFINITY [] =
                 (Ok fallback,
                  (log ++ [{| call_quality := baseQuality;
                              call_pipeline := pipeline_at baseQuality |}])%list)).
  { destruct (infinite_loop_completes 8 Hok) as [st [log [Hrun [Hlen Hnone]]]].
    destruct (Hok 8%nat (pipeline_at baseQuality)) as [fallback Hfallback].
    exists st, log, fallback.
    split; [exact Hrun | ]. split; [exact Hlen | ]. split; [exact Hnone | ].
    split; [exact Hfallback | ].
    unfold AnyTarget.encodeToTargetSize, bind. rewrite Hrun, Hnone.
    unfold await_toBuffer. rewrite Hlen, Hfallback. reflexivity. }
  split.
  - destruct targetBytes as [ | t].
    + destruct Hinfinite as [st [log [fallback [_ [_ [_ [_ Hrun]]]]]]].
      eexists. eexists. exact Hrun.
    + destruct (Hfinite t) as [_ [st [log [best [_ [_ [_ Hrun]]]]]]].
      eexists. eexists. exact Hrun.
  - split.
    + intros t ->. apply Hfinite.
    + intros ->. exact Hinfinite.
Qed.

(** C4, as amended.  Every quality that one of the eight rounds of the
    search tries lies between 29 and [max(baseQuality, 40) + 2], whatever
    the base quality and the target are and whatever the codec answers.
    For a finite target these are all the encode calls of the search; for
    the target [Infinity] a completed loop is followed by one more call,
    at the base quality itself. *)
Theorem probed_qualities_in_range (targetBytes : Diff) :
  Forall (fun q => in_range q) (qualities (snd (any_loop 8 targetBytes [])))
  /\ (forall t, targetBytes = Bytes t ->
        Forall (fun q => in_range q) (qualities (snd (any_search targetBytes []))))
  /\ (targetBytes = POSITIVE_INFINITY ->
        forall st log,
          any_loop 8 targetBytes [] = (Ok st, log) ->
          qualities (snd (any_search targetBytes [])) =
          (qualities log ++ [baseQuality])%list).
Proof.
  split; [ | split].
  - destruct targetBytes as [ | t].
    + apply (infinite_loop_safe 8).
    + rewrite finite_loop.
      apply (search_loop_safe buffer format t baseQuality options 8).
  - intros t ->. rewrite finite_search.
    destruct (search_loop_safe buffer format t baseQuality options 8)
      as [_ [Hrange Hrun]].
    unfold Convert.encodeToTargetSize, bind.
    destruct (search_loop 8 buffer format t baseQuality options [])
      as [[st | e] log]; simpl in *; [ | exact Hrange].
    destruct (Hrun st eq_refl) as [_ [_ [_ Hbest]]].
    destruct (bestBuffer st) as [best | ]; [exact Hrange | ].
    exfalso. apply Hbest; [lia | reflexivity].
  - intros -> st log Hrun.
    destruct (infinite_loop_safe 8) as [_ [_ Hsafe]].
    rewrite Hrun in Hsafe. destruct (Hsafe st eq_refl) as [_ [_ Hnone]].
    unfold AnyTarget.encodeToTargetSize, bind. rewrite Hrun, Hnone.
    unfold await_toBuffer, qualities. simpl. rewrite map_app. reflexivity.
Qed.

(** X7. For a finite target the base quality matters only through
    [max(baseQuality, 40)]: two base qualities with the same maximum
    give the same run, result and encode calls alike, whatever the codec
    does; every base quality up to 40 gives the run of 40. *)
Theorem base_quality_through_max (t otherQuality : Z) :
  Z.max baseQuality 40 = Z.max otherQuality 40 ->
  any_search (Bytes t) [] =
  AnyTarget.encodeToTargetSize buffer format (Bytes t) otherQuality options [].
Proof.
  intros Hmax. rewrite finite_search.
  change (AnyTarget.encodeToTargetSize buffer format (Bytes t) otherQuality options)
    with (Convert.encodeToTargetSize buffer format t otherQuality options).
  pose proof (search_loop_safe buffer format t otherQuality options 8)
    as [_ [_ Hsafe]].
  unfold Convert.encodeToTargetSize, bind, search_loop in *.
  assert (Hinit : search_init baseQuality = search_init otherQuality).
  { unfold search_init. rewrite Hmax. reflexivity. }
  rewrite Hinit.
  destruct (for_loop 8 (Convert.search_body buffer format t options)
              (search_init otherQuality) []) as [[st | e] log]; [ | reflexivity].
  destruct (Hsafe st eq_refl) as [_ [_ [_ Hbest]]].
  destruct (bestBuffer st) as [best | ]; [reflexivity | ].
  exfalso. apply Hbest; [lia | reflexivity].
Qed.

End EveryTarget.

Section JobCalls.

Context {E : Externals}.
Variable formData : FormData.

Lemma infinite_search_calls
    (buffer : Buffer) (format : string) (baseQuality : Z) (options : Options.t) :
  (List.length
     (snd (AnyTarget.encodeToTargetSize buffer format POSITIVE_INFINITY baseQuality
             options [])) <= 9)%nat
  /\ (codec_succeeds E ->
      List.length
        (snd (AnyTarget.encodeToTargetSize buffer format POSITIVE_INFINITY baseQuality
                options [])) = 9%nat).
Proof.
  split.
  - destruct (infinite_loop_safe buffer format baseQuality options 8) as [Hlen _].
    unfold AnyTarget.encodeToTargetSize, bind.
    destruct (AnyTarget.search_loop 8 buffer format POSITIVE_INFINITY baseQuality
                options []) as [[st | e] log]; simpl in *; [ | lia].
    destruct (bestBuffer st) as [best | ]; simpl; [lia | ].
    rewrite length_app. simpl. lia.
  - intros Hok.
    destruct (infinite_loop_completes buffer format baseQuality options 8 Hok)
      as [st [log [Hrun [Hlen Hnone]]]].
    unfold AnyTarget.encodeToTargetSize, bind. rewrite Hrun, Hnone. simpl.
    rewrite length_app. simpl. lia.
Qed.

(** X9. A form without a target size, with an empty one, or with one that
    reads as an integer that is not positive makes the job of a file
    encode exactly once.  A target size that reads as a positive integer
    below 2^1014 makes it encode between one and eight times.  From
    2^1014 on the product with 1024 is [Infinity]: the job encodes at most
    nine times, and exactly nine times when the codec answers every
    call. *)
Theorem job_encode_calls (file : File) :
  (get formData "targetSizeKB" = None \/ get formData "targetSizeKB" = Some "" ->
     List.length (snd (AnyTarget.convert_file formData file [])) = 1%nat)
  /\ (forall text n,
         get formData "targetSizeKB" = Some text -> text <> "" ->
         ToNumber text = Some n ->
         (n <= 0 -> List.length (snd (AnyTarget.convert_file formData file [])) = 1%nat)
         /\ (0 < n < 2 ^ 1014 ->
               (1 <= List.length (snd (AnyTarget.convert_file formData file [])) <= 8)%nat)
         /\ (2 ^ 1014 <= n ->
               (List.length (snd (AnyTarget.convert_file formData file [])) <= 9)%nat
               /\ (codec_succeeds E ->
                   List.length (snd (AnyTarget.convert_file formData file [])) = 9%nat))).
Proof.
  assert (Hone : targetSizeKB formData <= 0 ->
                 List.length (snd (AnyTarget.convert_file formData file [])) = 1%nat).
  { intros Hle. unfold AnyTarget.convert_file, bind, await_toBuffer.
    destruct (Z.gtb_spec (targetSizeKB formData) 0) as [Hgt | _]; [lia | ].
    cbn [List.length app].
    destruct (toBuffer 0 _) as [encoded | e]; reflexivity. }
  assert (Hlog : forall target,
             0 < targetSizeKB formData ->
             AnyTarget.times_1024 (targetSizeKB formData) = target ->
             snd (AnyTarget.convert_file formData file []) =
             snd (AnyTarget.encodeToTargetSize (file_bytes file) (outputFormat formData file)
                    target (quality formData) (encoderOptions formData file) [])).
  { intros target Hpos <-. unfold AnyTarget.convert_file, bind.
    destruct (Z.gtb_spec (targetSizeKB formData) 0) as [_ | Hle]; [ | lia].
    destruct (AnyTarget.encodeToTargetSize (file_bytes file) (outputFormat formData file)
                (AnyTarget.times_1024 (targetSizeKB formData)) (quality formData)
                (encoderOptions formData file) []) as [[encoded | e] log]; reflexivity. }
  split.
  - intros Hget. apply Hone. unfold targetSizeKB, safeNumber.
    destruct Hget as [-> | ->]; simpl; lia.
  - intros text n Hget Hne Hread.
    assert (Hkb : targetSizeKB formData = n).
    { unfold targetSizeKB, safeNumber. rewrite Hget, Hread.
      apply String.eqb_neq in Hne. rewrite Hne. reflexivity. }
    split; [intros Hle; apply Hone; lia | ].
    split.
    + intros [Hpos Hbelow].
      rewrite (Hlog (Bytes (n * 1024))).
      * change (AnyTarget.encodeToTargetSize (file_bytes file) (outputFormat formData file)
                  (Bytes (n * 1024)) (quality formData) (encoderOptions formData file))
          with (Convert.encodeToTargetSize (file_bytes file) (outputFormat formData file)
                  (n * 1024) (quality formData) (encoderOptions formData file)).
        pose proof (encodeToTargetSize_at_most_8 (file_bytes file)
                      (outputFormat formData file) (n * 1024) (quality formData)
                      (encoderOptions formData file)) as Hmost.
        pose proof (encodeToTargetSize_calls (file_bytes file)
                      (outputFormat formData file) (n * 1024) (quality formData)
                      (encoderOptions formData file)) as [Hnil _].
        destruct (snd (Convert.encodeToTargetSize (file_bytes file)
                         (outputFormat formData file) (n * 1024) (quality formData)
                         (encoderOptions formData file) [])) as [ | call log];
          [contradiction | ].
        cbn [List.length] in *. lia.
      * lia.
      * rewrite Hkb. unfold AnyTarget.times_1024.
        destruct (Z.leb_spec (2 ^ 1014) n); [lia | reflexivity].
    + intros Hover.
      assert (Hpos : 0 < n).
      { assert (0 < 2 ^ 1014) by (apply Z.pow_pos_nonneg; lia). lia. }
      rewrite (Hlog POSITIVE_INFINITY).
      * apply infinite_search_calls.
      * lia.
      * rewrite Hkb. unfold AnyTarget.times_1024.
        destruct (Z.leb_spec (2 ^ 1014) n); [reflexivity | lia].
Qed.

End JobCalls.

(** C2, as stated, fails: under the target [Infinity] no round records a
    buffer and the search makes a ninth encode call. *)
Lemma nine_encode_calls :
  ~ @at_most_eight_calls (codec_of_size 2048) [] "jpeg" POSITIVE_INFINITY 75 plain_options.
Proof.
  unfold at_most_eight_calls.
  destruct (@infinite_search_calls (codec_of_size 2048) [] "jpeg" 75 plain_options)
    as [_ Hnine].
  rewrite Hnine; [lia | ].
  intros i p. exists (repeat x00 2048). reflexivity.
Qed.

(** C3, as stated, fails: under the target [Infinity] the loop ends
    without a best buffer, so the fallback encode is what is returned. *)
Lemma fallback_is_taken :
  ~ @fallback_never_taken (codec_of_size 2048) [] "jpeg" POSITIVE_INFINITY 75 plain_options.
Proof.
  unfold fallback_never_taken. intros [st [log [best [Hloop [Hbest _]]]]].
  destruct (@infinite_loop_safe (codec_of_size 2048) [] "jpeg" 75 plain_options 8)
    as [_ [_ Hsafe]].
  rewrite Hloop in Hsafe. destruct (Hsafe st eq_refl) as [_ [_ Hnone]].
  rewrite Hnone in Hbest. discriminate Hbest.
Qed.

Lemma tagged_iteration_value (log : list EncodeCall) (j : nat) (encoded : Buffer) :
  @iteration_buffer codec_tagging_calls log j = Some encoded ->
  encoded = repeat (match Byte.of_nat j with Some b => b | None => x00 end) 1048.
Proof.
  unfold iteration_buffer.
  destruct (nth_error log j) as [call | ]; [ | discriminate].
  cbv beta iota delta [toBuffer codec_tagging_calls].
  intros Hsome. congruence.
Qed.

Lemma tagged_iteration_buffer (log : list EncodeCall) (j : nat) (encoded : Buffer) :
  @iteration_buffer codec_tagging_calls log j = Some encoded ->
  length encoded = 1048.
Proof.
  intros Hsome. rewrite (tagged_iteration_value log j encoded Hsome).
  unfold length. rewrite repeat_length. reflexivity.
Qed.

(** Eight rounds at the same distance from the target, with eight
    different buffers: the buffer of the first round is returned. *)
Lemma best_candidate_returned_witness :
  exists log,
    @AnyTarget.encodeToTargetSize codec_tagging_calls [] "jpeg" (Bytes 1024) 75
      plain_options [] = (Ok (repeat x00 1048), log).
Proof.
  destruct (@best_candidate_returned codec_tagging_calls [] "jpeg" 75 plain_options 1024)
    as [_ Hbest].
  destruct Hbest as [best [log [k [Hrun [Hk [Hround Hmin]]]]]].
  - split; [lia | ]. apply Z.pow_le_mono_r with (a := 2) (b := 10) (c := 53); lia.
  - intros i p. eexists. reflexivity.
  - exists log. rewrite Hrun. f_equal. f_equal.
    destruct k as [ | k].
    + exact (tagged_iteration_value log 0 best Hround).
    + exfalso.
      destruct (Hmin 0%nat) as [first [Hfirst [_ Hstrict]]]; [lia | ].
      assert (Hlt : diff_to_target 1024 best < diff_to_target 1024 first)
        by (apply Hstrict; lia).
      unfold diff_to_target in Hlt.
      rewrite (tagged_iteration_buffer log (S k) best Hround) in Hlt.
      rewrite (tagged_iteration_buffer log 0 first Hfirst) in Hlt.
      lia.
Defined.

Lemma search_never_fails_witness :
  exists result log,
    @AnyTarget.encodeToTargetSize (codec_of_size 2048) [] "webp" (Bytes 1024) 60
      plain_options [] = (Ok result, log).
Proof.
  destruct (@search_never_fails (codec_of_size 2048) [] "webp" 60 plain_options
              (Bytes 1024)) as [Hreturns _].
  - intros i p. exists (repeat x00 2048). reflexivity.
  - exact Hreturns.
Defined.

Lemma base_quality_through_max_witness :
  @AnyTarget.encodeToTargetSize (codec_of_size 2048) [] "jpeg" (Bytes 1024) 10
    plain_options [] =
  @AnyTarget.encodeToTargetSize (codec_of_size 2048) [] "jpeg" (Bytes 1024) 40
    plain_options [].
Proof.
  apply (@base_quality_through_max (codec_of_size 2048) [] "jpeg" 10 plain_options 1024 40).
  reflexivity.
Defined.

(** A request whose target size is 2^1014 KB: the job encodes nine times. *)
Lemma job_encode_calls_witness :
  List.length (snd (@AnyTarget.convert_file (codec_of_size 2048) overflow_form good_file []))
  = 9%nat.
Proof.
  destruct (@job_encode_calls (codec_of_size 2048) overflow_form good_file)
    as [_ Hread].
  destruct (Hread (Page.String_number (2 ^ 1014)) (2 ^ 1014)) as [_ [_ Hover]].
  - reflexivity.
  - apply String_number_not_empty.
  - vm_compute. reflexivity.
  - destruct (Hover (Z.le_refl _)) as [_ Hnine].
    apply Hnine. intros i p. exists (repeat x00 2048). reflexivity.
Defined.
